(** * Data-class generator: class model, property model and import block

    A shallow embedding of the types [DartClass], [Imports],
    [DartClassProperty] and [ClassPart], together with the properties of
    the specification that concern them.

    JavaScript strings are modelled as [string]: a character is one code
    unit in the range 0..255.  Numbers that hold line numbers are modelled
    as [Z]; a field that may hold [null] is an [option]. *)

From Stdlib Require Import Bool Ascii String List ZArith Lia Sorted Permutation.
Import ListNotations.

Local Open Scope string_scope.
Local Open Scope bool_scope.

(** ** JavaScript string primitives used by the source *)

Module Js.

(** The one-character string holding a line feed. *)
Definition nl : string := String (ascii_of_nat 10) EmptyString.

(** [null + 'text'] prints [null] as the word "null". *)
Definition str (o : option string) : string :=
  match o with
  | Some s => s
  | None => "null"
  end.

(** [lines[i] + 'text'] prints a missing element as "undefined". *)
Definition str_undef (o : option string) : string :=
  match o with
  | Some s => s
  | None => "undefined"
  end.

(** A [null] number used in arithmetic or in [<=] counts as [0]. *)
Definition num (o : option Z) : Z :=
  match o with
  | Some z => z
  | None => 0%Z
  end.

(** [s.startsWith(p)] *)
Definition startsWith (s p : string) : bool := prefix p s.

(** [s.endsWith(p)] *)
Fixpoint endsWith (s p : string) : bool :=
  if String.eqb s p then true
  else match s with
       | EmptyString => false
       | String _ r => endsWith r p
       end.

(** [s.includes(sub)] *)
Fixpoint includes (s sub : string) : bool :=
  if prefix sub s then true
  else match s with
       | EmptyString => false
       | String _ r => includes r sub
       end.

(** [s.substring(n)] *)
Fixpoint drop (n : nat) (s : string) : string :=
  match n, s with
  | O, _ => s
  | S _, EmptyString => EmptyString
  | S n', String _ r => drop n' r
  end.

(** [s.replace(pat, rep)] with a string pattern: only the first
    occurrence of [pat] is replaced. *)
Fixpoint replace (s pat rep : string) : string :=
  if prefix pat s then rep ++ drop (String.length pat) s
  else match s with
       | EmptyString => EmptyString
       | String c r => String c (replace r pat rep)
       end.

(** White space of [trim], among the code units 0..255. *)
Definition is_ws (c : ascii) : bool :=
  let n := nat_of_ascii c in
  Nat.eqb n 9 || Nat.eqb n 10 || Nat.eqb n 11 || Nat.eqb n 12
  || Nat.eqb n 13 || Nat.eqb n 32 || Nat.eqb n 160.

(** [s.trimLeft()] *)
Fixpoint trimLeft (s : string) : string :=
  match s with
  | EmptyString => EmptyString
  | String c r => if is_ws c then trimLeft r else s
  end.

(** [s.trimRight()] *)
Fixpoint trimRight (s : string) : string :=
  match s with
  | EmptyString => EmptyString
  | String c r =>
      match trimRight r with
      | EmptyString => if is_ws c then EmptyString else String c EmptyString
      | r' => String c r'
      end
  end.

(** [s.trim()] *)
Definition trim (s : string) : string := trimRight (trimLeft s).

(** [s.split('\n')]: never empty, [''.split('\n')] is [['']]. *)
Fixpoint split_nl (s : string) : list string :=
  match s with
  | EmptyString => [EmptyString]
  | String c r =>
      if Ascii.eqb c (ascii_of_nat 10) then EmptyString :: split_nl r
      else match split_nl r with
           | h :: t => String c h :: t
           | [] => [String c EmptyString]
           end
  end.

(** Whether a string holds a line feed. *)
Fixpoint hasNewline (s : string) : bool :=
  match s with
  | EmptyString => false
  | String c r => Ascii.eqb c (ascii_of_nat 10) || hasNewline r
  end.

(** [a.sort()] on an array of strings: the default comparison orders
    strings by their code units.  Two strings that compare equal are the
    same string, so the sorted array does not depend on the algorithm. *)
Fixpoint insert_sorted (x : string) (l : list string) : list string :=
  match l with
  | [] => [x]
  | y :: t => if String.leb x y then x :: l else y :: insert_sorted x t
  end.

Fixpoint sort (l : list string) : list string :=
  match l with
  | [] => []
  | x :: t => insert_sorted x (sort t)
  end.

(** [x != null] *)
Definition notNull {A : Type} (o : option A) : bool :=
  match o with
  | Some _ => true
  | None => false
  end.

(** [a.includes(x)] on an array of strings. *)
Fixpoint arr_includes (l : list string) (x : string) : bool :=
  match l with
  | [] => false
  | y :: t => String.eqb y x || arr_includes t x
  end.

(** A line terminator of a regular expression, among the code units
    0..255: line feed and carriage return. *)
Definition isLineTerminator (c : ascii) : bool :=
  let n := nat_of_ascii c in
  Nat.eqb n 10 || Nat.eqb n 13.

(** Whether [pat] stands right after a line terminator of [s]. *)
Fixpoint matchAfterBreak (s pat : string) : bool :=
  match s with
  | EmptyString => false
  | String c r => (isLineTerminator c && prefix pat r) || matchAfterBreak r pat
  end.

(** [/^pat/m.test(s)] for a literal [pat]: with the flag [m] the anchor
    matches at the start of the text and after every line terminator. *)
Definition testLineStart (s pat : string) : bool :=
  prefix pat s || matchAfterBreak s pat.

(** [s.split(',')] *)
Fixpoint split_comma (s : string) : list string :=
  match s with
  | EmptyString => [EmptyString]
  | String c r =>
      if Ascii.eqb c (ascii_of_nat 44) then EmptyString :: split_comma r
      else match split_comma r with
           | h :: t => String c h :: t
           | [] => [String c EmptyString]
           end
  end.

(** [s.substring(0, s.indexOf(pat))] when [pat] occurs in [s]: the text in
    front of the first occurrence. *)
Fixpoint before (s pat : string) : string :=
  if prefix pat s then EmptyString
  else match s with
       | EmptyString => EmptyString
       | String c r => String c (before r pat)
       end.

End Js.

(** ** Helpers imported from [./helpers] *)

(** Modelled from the spec: [removeEnd] is imported from [./helpers] and its
    body is missing.  The specification uses it to strip a trailing newline
    (the replacement text has its "trailing newline stripped", the import
    block its "trailing blank line stripped"): when [source] ends with [e]
    that ending is removed, otherwise [source] is returned unchanged. *)
Fixpoint removeEnd (source e : string) : string :=
  if String.eqb source e then EmptyString
  else match source with
       | EmptyString => EmptyString
       | String c r => String c (removeEnd r e)
       end.

(** Modelled from the spec: [isBlank] is imported from [./helpers] and its
    body is missing.  The specification speaks of "blank lines": a line is
    blank when it holds white space only. *)
Definition isBlank (s : string) : bool :=
  String.eqb (Js.trim s) EmptyString.


(** ** DartClassProperty *)

Module DartClassProperty.

Record t := mk {
  rawType : string;
  jsonName : string;
  name : string;
  lineNumber : Z;
  isFinal : bool;
  isConst : bool;
  isEnum : bool
}.

Section Property.

(** [toVarName] is imported from [./helpers] and its body is missing; the
    property model takes it as a parameter. *)
Variable toVarName : string -> string.

(** [new DartClassProperty(type, name, lineNumber, isFinal, isConst)] *)
Definition newDartClassProperty (type name : string) (lineNumber : Z)
    (isFinal isConst : bool) : t :=
  {| rawType := type;
     jsonName := name;
     name := toVarName name;
     lineNumber := lineNumber;
     isFinal := isFinal;
     isConst := isConst;
     isEnum := false |}.

Definition isCollectionType (p : t) (type : string) : bool :=
  String.eqb (rawType p) type || Js.startsWith (rawType p) (type ++ "<").

Definition isNullable (p : t) : bool :=
  Js.endsWith (rawType p) "?".

(** The getter [type]. *)
Definition type (p : t) : string :=
  if isNullable p then removeEnd (rawType p) "?" else rawType p.

Definition isList (p : t) : bool := isCollectionType p "List".
Definition isMap (p : t) : bool := isCollectionType p "Map".
Definition isSet (p : t) : bool := isCollectionType p "Set".

Definition isCollection (p : t) : bool :=
  isList p || isMap p || isSet p.

Definition listType (p : t) : t :=
  if isList p || isSet p then
    let collection := if isSet p then "Set" else "List" in
    let type :=
      if String.eqb (rawType p) collection then "dynamic"
      else Js.replace (Js.replace (rawType p) (collection ++ "<") "") ">" "" in
    newDartClassProperty type (name p) (lineNumber p) (isFinal p) false
  else p.

Definition isInt (p : t) : bool :=
  String.eqb (type (listType p)) "int".

Definition isDouble (p : t) : bool :=
  String.eqb (type (listType p)) "double".

Definition isPrimitive (p : t) : bool :=
  let t := type (listType p) in
  String.eqb t "String" || String.eqb t "num" || String.eqb t "dynamic"
  || String.eqb t "bool" || isDouble p || isInt p || isMap p.

Definition defValue (p : t) : string :=
  if isList p then "const []"
  else if isMap p || isSet p then "const {}"
  else
    let t := type p in
    if String.eqb t "String" then "''"
    else if String.eqb t "num" then "0"
    else if String.eqb t "int" then "0"
    else if String.eqb t "double" then "0.0"
    else if String.eqb t "bool" then "false"
    else if String.eqb t "dynamic" then "null"
    else t ++ "()".

End Property.

End DartClassProperty.

(** ** ClassPart *)

Module ClassPart.

Record t := mk {
  name : string;
  startsAt : option Z;
  endsAt : option Z;
  current : option string;
  replacement : option string
}.

Definition isValid (p : t) : bool :=
  Js.notNull (startsAt p) && Js.notNull (endsAt p) && Js.notNull (current p).

End ClassPart.

(** ** DartClass *)

Module DartClass.

Record t := mk {
  name : option string;
  fullGenericType : string;
  superclass : option string;
  interfaces : list string;
  mixins : list string;
  constr : option string;
  properties : list DartClassProperty.t;
  startsAtLine : option Z;
  endsAtLine : option Z;
  constrStartsAtLine : option Z;
  constrEndsAtLine : option Z;
  constrDifferent : bool;
  isArray : bool;
  classContent : string;
  toInsert : string;
  toReplace : list ClassPart.t;
  isLastInFile : bool;
  abstract : bool
}.

Definition propsEndAtLine (c : t) : Z :=
  last (map DartClassProperty.lineNumber (properties c)) (-1)%Z.

Definition hasSuperclass (c : t) : bool := Js.notNull (superclass c).

Definition classDetected (c : t) : bool := Js.notNull (startsAtLine c).

Definition hasNamedConstructor (c : t) : bool :=
  match constr c with
  | Some text =>
      Js.startsWith (Js.trimLeft (Js.replace text "const" ""))
                    (Js.str (name c) ++ "({")
  | None => true
  end.

Definition hasConstructor (c : t) : bool :=
  Js.notNull (constrStartsAtLine c) && Js.notNull (constrEndsAtLine c)
  && Js.notNull (constr c).

Definition hasMixins (c : t) : bool := Nat.ltb 0 (List.length (mixins c)).

Definition hasInterfaces (c : t) : bool := Nat.ltb 0 (List.length (interfaces c)).

Definition hasEnding (c : t) : bool := Js.notNull (endsAtLine c).

Definition hasProperties (c : t) : bool := Nat.ltb 0 (List.length (properties c)).

(** The loop of [uniquePropNames]: [props] holds the names seen so far. *)
Fixpoint uniquePropNames_loop (ps : list DartClassProperty.t)
    (props : list string) : bool :=
  match ps with
  | [] => true
  | p :: rest =>
      let n := DartClassProperty.name p in
      if Js.arr_includes props n then false
      else uniquePropNames_loop rest (props ++ [n])
  end.

Definition uniquePropNames (c : t) : bool :=
  uniquePropNames_loop (properties c) [].

Definition isValid (c : t) : bool :=
  classDetected c && hasEnding c && hasProperties c && uniquePropNames c.

Definition isAbstract (c : t) : bool :=
  if Nat.ltb 0 (String.length (classContent c))
  then Js.startsWith (Js.trimLeft (classContent c)) "abstract class"
  else abstract c.

Definition issue (c : t) : string :=
  let def := Js.str (name c) ++ " couldn't be converted to a data class: " in
  if negb (hasProperties c) then
    def ++ "Class must have at least one property!"
  else if negb (hasEnding c) then
    def ++ "Class has no ending!"
  else if negb (uniquePropNames c) then
    def ++ "Class doesn't have unique property names!"
  else
    removeEnd def ": " ++ ".".

(** The test of [replacementAtLine] on one part; a [null] bound compares
    as [0]. *)
Definition covers (part : ClassPart.t) (line : Z) : bool :=
  Z.leb (Js.num (ClassPart.startsAt part)) line
  && Z.geb (Js.num (ClassPart.endsAt part)) line.

Fixpoint replacementAt (parts : list ClassPart.t) (line : Z) : option string :=
  match parts with
  | [] => None
  | part :: rest =>
      if covers part line then ClassPart.replacement part
      else replacementAt rest line
  end.

Definition replacementAtLine (c : t) (line : Z) : option string :=
  replacementAt (toReplace c) line.

(** The loop of the local function [addSuperTypes], after its test that
    the list is not empty. *)
Fixpoint addSuperTypes_loop (list : list string) (classDeclaration : string)
    : string :=
  match list with
  | [] => classDeclaration
  | type :: rest =>
      let isLast := match rest with [] => true | _ => false end in
      let classDeclaration := classDeclaration ++ type in
      addSuperTypes_loop rest
        (if negb isLast then classDeclaration ++ ", " else classDeclaration)
  end.

Definition addSuperTypes (list : list string) (keyword : string)
    (classDeclaration : string) : string :=
  match list with
  | [] => classDeclaration
  | _ => addSuperTypes_loop list (classDeclaration ++ " " ++ keyword ++ " ")
  end.

(** The class header written at [i == 0], with its newline. *)
Definition classDeclaration (c : t) : string :=
  let classType := if isAbstract c then "abstract class" else "class" in
  let d := classType ++ " " ++ Js.str (name c) ++ fullGenericType c in
  let d := match superclass c with
           | Some s => d ++ " extends " ++ s
           | None => d
           end in
  let d := addSuperTypes (mixins c) "with" d in
  let d := addSuperTypes (interfaces c) "implements" d in
  d ++ " {" ++ Js.nl.

(** [l == this.endsAtLine], a number against a number or [null]. *)
Definition lineIs (l : Z) (o : option Z) : bool :=
  match o with
  | Some z => Z.eqb l z
  | None => false
  end.

(** One turn of the loop of [generateClassReplacement], at index [i]. *)
Definition step (c : t) (lines : list string) (i : nat) (replacement : string)
    : string :=
  let line := Js.str_undef (nth_error lines i) ++ Js.nl in
  let l := (Js.num (startsAtLine c) + Z.of_nat i)%Z in
  if Nat.eqb i 0 then
    classDeclaration c ++ replacement
  else if Z.eqb l (propsEndAtLine c) && Js.notNull (constr c)
          && negb (hasConstructor c) then
    line ++ (Js.str (constr c) ++ replacement)
  else if lineIs l (endsAtLine c) && isValid c then
    toInsert c ++ (line ++ replacement)
  else
    match replacementAtLine c l with
    | Some rp =>
        if negb (Js.includes replacement rp) then rp ++ Js.nl ++ replacement
        else replacement
    | None => line ++ replacement
    end.

(** The turns at the indices [k - 1], [k - 2], ..., [0], in that order. *)
Fixpoint loop (c : t) (lines : list string) (k : nat) (replacement : string)
    : string :=
  match k with
  | O => replacement
  | S i => loop c lines i (step c lines i replacement)
  end.

(** The text gathered by the turns at the indices [k + d - 1], ..., [k], in
    that order, from the empty text. *)
Fixpoint below (c : t) (lines : list string) (k d : nat) : string :=
  match d with
  | O => ""
  | S d' => step c lines k (below c lines (S k) d')
  end.

(** The first value of [i]: [this.endsAtLine - this.startsAtLine]. *)
Definition lastIndex (c : t) : Z :=
  (Js.num (endsAtLine c) - Js.num (startsAtLine c))%Z.

Definition generateClassReplacement (c : t) : string :=
  let lines := Js.split_nl (classContent c) in
  removeEnd (loop c lines (Z.to_nat (lastIndex c + 1)) "") Js.nl.

(** The class with another constructor text. *)
Definition withConstr (c : t) (text : option string) : t :=
  {| name := name c;
     fullGenericType := fullGenericType c;
     superclass := superclass c;
     interfaces := interfaces c;
     mixins := mixins c;
     constr := text;
     properties := properties c;
     startsAtLine := startsAtLine c;
     endsAtLine := endsAtLine c;
     constrStartsAtLine := constrStartsAtLine c;
     constrEndsAtLine := constrEndsAtLine c;
     constrDifferent := constrDifferent c;
     isArray := isArray c;
     classContent := classContent c;
     toInsert := toInsert c;
     toReplace := toReplace c;
     isLastInFile := isLastInFile c;
     abstract := abstract c |}.

(** The class with another text to insert. *)
Definition withToInsert (c : t) (text : string) : t :=
  {| name := name c;
     fullGenericType := fullGenericType c;
     superclass := superclass c;
     interfaces := interfaces c;
     mixins := mixins c;
     constr := constr c;
     properties := properties c;
     startsAtLine := startsAtLine c;
     endsAtLine := endsAtLine c;
     constrStartsAtLine := constrStartsAtLine c;
     constrEndsAtLine := constrEndsAtLine c;
     constrDifferent := constrDifferent c;
     isArray := isArray c;
     classContent := classContent c;
     toInsert := text;
     toReplace := toReplace c;
     isLastInFile := isLastInFile c;
     abstract := abstract c |}.

(** The callback of [map] in the getter [genericType]; [lastPart] is
    [parts[parts.length - 1]]. *)
Definition genericPart (lastPart type : string) : string :=
  let part := Js.trim type in
  if Js.includes part "extends" then
    let part := Js.trim (Js.before part "extends") in
    if String.eqb type lastPart then part ++ ">" else part
  else part.

Definition genericType (c : t) : string :=
  let parts := Js.split_comma (fullGenericType c) in
  String.concat ", " (map (genericPart (last parts EmptyString)) parts).

(** The getter [type]. *)
Definition type (c : t) : string := Js.str (name c) ++ genericType c.

Definition didChange (c : t) : bool :=
  Nat.ltb 0 (String.length (toInsert c)) || Nat.ltb 0 (List.length (toReplace c))
  || constrDifferent c.

Definition fewProps (c : t) : bool := Nat.leb (List.length (properties c)) 3.

Definition isWidget (c : t) : bool :=
  match superclass c with
  | Some s => String.eqb s "StatelessWidget" || String.eqb s "StatefulWidget"
  | None => false
  end.

Definition isStatelessWidget (c : t) : bool :=
  isWidget c
  && match superclass c with
     | Some s => String.eqb s "StatelessWidget"
     | None => false
     end.

Definition isState (c : t) : bool :=
  negb (isWidget c)
  && match superclass c with
     | Some s => Js.startsWith s "State<"
     | None => false
     end.

Definition usesEquatable (c : t) : bool :=
  (hasSuperclass c
   && match superclass c with
      | Some s => String.eqb s "Equatable"
      | None => false
      end)
  || (hasMixins c && Js.arr_includes (mixins c) "EquatableMixin").

End DartClass.

(** ** Imports *)

Module Imports.

Record t := mk {
  values : list string;
  startAtLine : option Z;
  endAtLine : option Z;
  rawStatements : string;
  projectName : option string
}.

Definition hasImports (imp : t) : bool := Nat.ltb 0 (List.length (values imp)).

Definition hasPreviousImports (imp : t) : bool :=
  Js.notNull (startAtLine imp) && Js.notNull (endAtLine imp).

(** The test that opens the first branch of the loop of [readImports]. *)
Definition isDirective (line : string) : bool :=
  Js.startsWith line "import" || Js.startsWith line "export"
  || Js.startsWith line "part".

Definition set_endAtLine (imp : t) (n : Z) : t :=
  {| values := values imp;
     startAtLine := startAtLine imp;
     endAtLine := Some n;
     rawStatements := rawStatements imp;
     projectName := projectName imp |}.

(** The first three statements of the first branch: the line is stored. *)
Definition pushLine (imp : t) (line : string) (i : nat) : t :=
  {| values := values imp ++ [line];
     startAtLine := match startAtLine imp with
                    | None => Some (Z.of_nat i + 1)%Z
                    | Some n => Some n
                    end;
     endAtLine := endAtLine imp;
     rawStatements := rawStatements imp ++ (line ++ Js.nl);
     projectName := projectName imp |}.

(** The loop of [readImports] from index [i] on: [rest] holds [lines[i]],
    [lines[i + 1]], ... and [lines] the whole array. *)
Fixpoint readImports_loop (lines : list string) (i : nat) (rest : list string)
    (imp : t) : t :=
  match rest with
  | [] => imp
  | raw :: rest' =>
      let line := Js.trim raw in
      let isLast := match rest' with [] => true | _ => false end in
      if isDirective line then
        let imp := pushLine imp line i in
        if isLast then set_endAtLine imp (Z.of_nat i + 1)%Z
        else readImports_loop lines (S i) rest' imp
      else
        let isInitialComment :=
          Js.startsWith line "//" && Nat.eqb (List.length (values imp)) 0 in
        let importsSectionEnded :=
          negb (isInitialComment || Js.startsWith line "library" || isBlank line) in
        if isLast || importsSectionEnded then
          if Js.notNull (startAtLine imp) then
            if Nat.ltb 0 i && isBlank (nth (i - 1) lines EmptyString)
            then set_endAtLine imp (Z.of_nat i - 1)%Z
            else set_endAtLine imp (Z.of_nat i)
          else imp
        else readImports_loop lines (S i) rest' imp
  end.

(** [readImports(text)]; an empty text is falsy and returns at once. *)
Definition readImports (imp : t) (text : string) : t :=
  if Nat.eqb (String.length text) 0 then imp
  else
    let lines := Js.split_nl text in
    readImports_loop lines 0 lines imp.

(** [new Imports(text, projectName)] *)
Definition new (text : string) (projectName : option string) : t :=
  readImports
    {| values := [];
       startAtLine := None;
       endAtLine := None;
       rawStatements := "";
       projectName := projectName |}
    text.

(** The workspace name used by [formatted].  The editor is not modelled:
    [folder] stands for [path.basename(folder.uri.fsPath)] when the document
    is a file inside a workspace folder, and is [None] otherwise. *)
Definition workspaceOf (projectName folder : option string) : option string :=
  let fallback (workspace : option string) :=
    match folder with
    | Some base => Some (Js.replace base "-" "_")
    | None => workspace
    end in
  match projectName with
  | None => fallback None
  | Some w => if Nat.eqb (String.length w) 0 then fallback (Some w) else Some w
  end.

(** The six arrays filled by the loop of [formatted]. *)
Record Arrays := mkArrays {
  dartImports : list string;
  packageImports : list string;
  packageLocalImports : list string;
  relativeImports : list string;
  partStatements : list string;
  exports : list string
}.

Definition noArrays : Arrays := mkArrays [] [] [] [] [] [].

(** One turn of the loop over [this.values]. *)
Definition pushStatement (workspace : option string) (a : Arrays)
    (statement : string) : Arrays :=
  if Js.startsWith statement "export" then
    mkArrays (dartImports a) (packageImports a) (packageLocalImports a)
             (relativeImports a) (partStatements a) (exports a ++ [statement])
  else if Js.startsWith statement "part" then
    mkArrays (dartImports a) (packageImports a) (packageLocalImports a)
             (relativeImports a) (partStatements a ++ [statement]) (exports a)
  else if Js.includes statement "dart:" then
    mkArrays (dartImports a ++ [statement]) (packageImports a)
             (packageLocalImports a) (relativeImports a) (partStatements a)
             (exports a)
  else if match workspace with
          | Some w => Js.includes statement ("package:" ++ w)
          | None => false
          end then
    mkArrays (dartImports a) (packageImports a)
             (packageLocalImports a ++ [statement]) (relativeImports a)
             (partStatements a) (exports a)
  else if Js.includes statement "package:" then
    mkArrays (dartImports a) (packageImports a ++ [statement])
             (packageLocalImports a) (relativeImports a) (partStatements a)
             (exports a)
  else
    mkArrays (dartImports a) (packageImports a) (packageLocalImports a)
             (relativeImports a ++ [statement]) (partStatements a) (exports a).

(** The loop of the local function [addImports], over the sorted array. *)
Fixpoint addImports_loop (statements : list string)
    (formattedStatements : string) : string :=
  match statements with
  | [] => formattedStatements
  | statement :: rest =>
      let isLast := match rest with [] => true | _ => false end in
      let formattedStatements := formattedStatements ++ (statement ++ Js.nl) in
      addImports_loop rest
        (if isLast then formattedStatements ++ Js.nl else formattedStatements)
  end.

Definition addImports (statements : list string)
    (formattedStatements : string) : string :=
  addImports_loop (Js.sort statements) formattedStatements.

Definition formatted (folder : option string) (imp : t) : string :=
  if negb (hasImports imp) then ""
  else
    let workspace := workspaceOf (projectName imp) folder in
    let a := fold_left (pushStatement workspace) (values imp) noArrays in
    let f := "" in
    let f := addImports (dartImports a) f in
    let f := addImports (packageImports a) f in
    let f := addImports (packageLocalImports a) f in
    let f := addImports (relativeImports a) f in
    let f := addImports (exports a) f in
    let f := addImports (partStatements a) f in
    removeEnd f Js.nl.


(** Formatting an import block given as text. *)
Definition format (folder projectName : option string) (text : string) : string :=
  formatted folder (new text projectName).

Definition hasExportDeclaration (folder : option string) (imp : t) : bool :=
  Js.testLineStart (formatted folder imp) "export ".

Definition hasImportDeclaration (folder : option string) (imp : t) : bool :=
  Js.testLineStart (formatted folder imp) "import ".

Definition includes (imp : t) (importStatement : string) : bool :=
  Js.arr_includes (values imp) importStatement.

Definition push (imp : t) (importStatement : string) : t :=
  {| values := values imp ++ [importStatement];
     startAtLine := startAtLine imp;
     endAtLine := endAtLine imp;
     rawStatements := rawStatements imp;
     projectName := projectName imp |}.

Fixpoint hasAtLeastOneImport (imp : t) (packageNames : list string) : bool :=
  match packageNames with
  | [] => false
  | packageName :: rest =>
      let importStatement := "import '" ++ packageName ++ "';" in
      if includes imp importStatement then true
      else hasAtLeastOneImport imp rest
  end.

(** The statement that [requiresImport] looks for and adds. *)
Definition formattedImport (importStatementOrPackageName : string) : string :=
  if negb (Js.startsWith importStatementOrPackageName "import")
  then "import '" ++ importStatementOrPackageName ++ "';"
  else importStatementOrPackageName.

Definition requiresImport (imp : t) (importStatementOrPackageName : string)
    (validOverrides : list string) : t :=
  let formattedImport := formattedImport importStatementOrPackageName in
  if negb (includes imp formattedImport)
     && negb (hasAtLeastOneImport imp validOverrides)
  then push imp formattedImport
  else imp.

End Imports.

(** ** Commands *)

Module Commands.

(** The inner loop of [showClassChooser]: the classes called
    [selectedClass] are added to [result]. *)
Fixpoint pushNamed (selectedClass : string) (theClasses : list DartClass.t)
    (result : list DartClass.t) : list DartClass.t :=
  match theClasses with
  | [] => result
  | aClass :: rest =>
      let same := match DartClass.name aClass with
                  | Some n => String.eqb n selectedClass
                  | None => false
                  end in
      pushNamed selectedClass rest
        (if same then result ++ [aClass] else result)
  end.

(** The outer loop of [showClassChooser]. *)
Fixpoint pushSelected (response : list string) (theClasses : list DartClass.t)
    (result : list DartClass.t) : list DartClass.t :=
  match response with
  | [] => result
  | selectedClass :: rest =>
      pushSelected rest theClasses (pushNamed selectedClass theClasses result)
  end.

(** What [showClassChooser] returns once the quick pick has answered with
    [response] ([None] when the pick was dismissed). *)
Definition showClassChooser (theClasses : list DartClass.t)
    (response : option (list string)) : option (list DartClass.t) :=
  match response with
  | Some ((_ :: _) as names) => Some (pushSelected names theClasses [])
  | _ => None
  end.

End Commands.

(** ** The specification's reading of the derived values *)

Module Spec.

(** The table of default values, keyed by the base type. *)
Definition defaultTable : list (string * string) :=
  [ ("String", "''"); ("num", "0"); ("int", "0"); ("double", "0.0");
    ("bool", "false"); ("dynamic", "null") ].

Fixpoint lookup (table : list (string * string)) (key : string) : option string :=
  match table with
  | [] => None
  | (k, v) :: rest => if String.eqb k key then Some v else lookup rest key
  end.

(** The default value of a type that is not a collection: the entry of the
    table, and [Type()] for any other type. *)
Definition defaultFor (type : string) : string :=
  match lookup defaultTable type with
  | Some v => v
  | None => type ++ "()"
  end.

(** The primitive type names. *)
Definition primitiveNames : list string :=
  ["String"; "num"; "dynamic"; "bool"; "int"; "double"].

(** The four messages of [issue], for a class called [n]. *)
Definition noFields (n : string) : string :=
  n ++ " couldn't be converted to a data class: Class must have at least one property!".

Definition noEnding (n : string) : string :=
  n ++ " couldn't be converted to a data class: Class has no ending!".

Definition duplicateNames (n : string) : string :=
  n ++ " couldn't be converted to a data class: Class doesn't have unique property names!".

Definition generic (n : string) : string :=
  n ++ " couldn't be converted to a data class.".

(** The constructor text without a leading [const] keyword (the word
    [const] in front of the text, followed by white space) and without the
    white space around it. *)
Definition stripLeadingConst (text : string) : string :=
  let t := Js.trimLeft text in
  match Js.drop 5 t with
  | String c r =>
      if Js.startsWith t "const" && Js.is_ws c then Js.trimLeft r else t
  | EmptyString => t
  end.

(** The specification's test for a constructor with named parameters. *)
Definition beginsWithNamedParameters (name text : string) : bool :=
  Js.startsWith (stripLeadingConst text) (name ++ "({").

(** The six buckets of the formatted import block, in the order in which
    they are written. *)
Inductive Bucket :=
| DartImport
| PackageImport
| LocalPackageImport
| RelativeImport
| ExportStatement
| PartStatement.

Definition order : list Bucket :=
  [DartImport; PackageImport; LocalPackageImport; RelativeImport;
   ExportStatement; PartStatement].

Definition bucket_eqb (a b : Bucket) : bool :=
  match a, b with
  | DartImport, DartImport
  | PackageImport, PackageImport
  | LocalPackageImport, LocalPackageImport
  | RelativeImport, RelativeImport
  | ExportStatement, ExportStatement
  | PartStatement, PartStatement => true
  | _, _ => false
  end.

(** A package import references the workspace when it names the package
    of that workspace. *)
Definition referencesWorkspace (workspace : option string) (statement : string)
    : bool :=
  match workspace with
  | Some w => Js.includes statement ("package:" ++ w)
  | None => false
  end.

(** The bucket of one directive. *)
Definition bucketOf (workspace : option string) (statement : string) : Bucket :=
  if Js.startsWith statement "export" then ExportStatement
  else if Js.startsWith statement "part" then PartStatement
  else if Js.includes statement "dart:" then DartImport
  else if referencesWorkspace workspace statement then LocalPackageImport
  else if Js.includes statement "package:" then PackageImport
  else RelativeImport.

(** The array of [formatted] that holds bucket [b]. *)
Definition array (a : Imports.Arrays) (b : Bucket) : list string :=
  match b with
  | DartImport => Imports.dartImports a
  | PackageImport => Imports.packageImports a
  | LocalPackageImport => Imports.packageLocalImports a
  | RelativeImport => Imports.relativeImports a
  | ExportStatement => Imports.exports a
  | PartStatement => Imports.partStatements a
  end.

(** The directives of a block that fall into bucket [b], in source order. *)
Definition directivesOf (workspace : option string) (b : Bucket)
    (values : list string) : list string :=
  filter (fun s => bucket_eqb (bucketOf workspace s) b) values.

(** Every line followed by a newline. *)
Fixpoint unlines (l : list string) : string :=
  match l with
  | [] => ""
  | s :: rest => s ++ Js.nl ++ unlines rest
  end.

(** The lines of one bucket: nothing for an empty bucket, otherwise its
    directives and one blank line. *)
Definition bucketLines (l : list string) : list string :=
  match l with
  | [] => []
  | _ => l ++ [""]
  end.

(** The text of the block whose buckets hold [content], in order, with the
    trailing blank line stripped. *)
Definition layoutLines (content : Bucket -> list string) (ord : list Bucket)
    : list string :=
  flat_map (fun b => bucketLines (content b)) ord.

Definition layout (content : Bucket -> list string) : string :=
  removeEnd (unlines (layoutLines content order)) Js.nl.

(** A directive as [readImports] stores it: a trimmed line that starts
    with [import], [export] or [part]. *)
Definition storedDirective (s : string) : Prop :=
  Imports.isDirective s = true /\ Js.trim s = s /\ Js.hasNewline s = false.

(** Alphabetical order: the order of the code units. *)
Definition alphabetical (l : list string) : Prop :=
  Sorted (fun x y => String.leb x y = true) l.

(** A line that [readImports] passes over in front of the first directive:
    a comment, a [library] directive or a blank line. *)
Definition preludeLine (raw : string) : Prop :=
  let line := Js.trim raw in
  Js.startsWith line "//" || Js.startsWith line "library" || isBlank line = true.

(** The supertypes of a class header after the keyword [keyword]: nothing
    for an empty list, otherwise the names separated by a comma and a
    space. *)
Definition superTypes (keyword : string) (list : list string) : string :=
  match list with
  | [] => ""
  | _ => " " ++ keyword ++ " " ++ String.concat ", " list
  end.

(** The header line of a class, without its newline. *)
Definition header (c : DartClass.t) : string :=
  (if DartClass.isAbstract c then "abstract class" else "class")
  ++ " " ++ Js.str (DartClass.name c) ++ DartClass.fullGenericType c
  ++ match DartClass.superclass c with
     | Some s => " extends " ++ s
     | None => ""
     end
  ++ superTypes "with" (DartClass.mixins c)
  ++ superTypes "implements" (DartClass.interfaces c)
  ++ " {".

(** The texts of a list one after the other. *)
Fixpoint joined (l : list string) : string :=
  match l with
  | [] => ""
  | s :: rest => s ++ joined rest
  end.

(** What the replacement text holds for the line at index [i] of a class,
    [after] being the text that stands behind it: the header for the first
    line; the line and the constructor text at the line of the last
    property, when a constructor is to be added; the text to insert and
    the line at the closing line of a valid class; for a line inside the
    span of a part to replace, the replacement and a newline, or nothing
    when [after] holds the replacement already; for any other line, the
    line itself and a newline. *)
Definition written (c : DartClass.t) (lines : list string) (i : nat)
    (after : string) : string :=
  let line := Js.str_undef (nth_error lines i) in
  let l := (Js.num (DartClass.startsAtLine c) + Z.of_nat i)%Z in
  if Nat.eqb i 0 then header c ++ Js.nl
  else if Z.eqb l (DartClass.propsEndAtLine c) && Js.notNull (DartClass.constr c)
          && negb (DartClass.hasConstructor c) then
    line ++ Js.nl ++ Js.str (DartClass.constr c)
  else if DartClass.lineIs l (DartClass.endsAtLine c) && DartClass.isValid c then
    DartClass.toInsert c ++ line ++ Js.nl
  else
    match DartClass.replacementAtLine c l with
    | Some rp => if Js.includes after rp then "" else rp ++ Js.nl
    | None => line ++ Js.nl
    end.

(** The pieces written for the lines at the indices [k], ..., [k + d - 1],
    in the order of the lines. *)
Fixpoint piecesFrom (c : DartClass.t) (lines : list string) (k d : nat)
    : list string :=
  match d with
  | O => []
  | S d' =>
      let later := piecesFrom c lines (S k) d' in
      written c lines k (joined later) :: later
  end.

End Spec.

(** ** Sample inputs *)

Module Sample.

(** [class Reconstructor { final int a; Reconstructor({this.a}); }] *)
Definition reconstructor : DartClass.t :=
  {| DartClass.name := Some "Reconstructor";
     DartClass.fullGenericType := "";
     DartClass.superclass := None;
     DartClass.interfaces := [];
     DartClass.mixins := [];
     DartClass.constr := Some "Reconstructor({this.a});";
     DartClass.properties :=
       [DartClassProperty.mk "int" "a" "a" 2 true false false];
     DartClass.startsAtLine := Some 1%Z;
     DartClass.endsAtLine := Some 4%Z;
     DartClass.constrStartsAtLine := Some 3%Z;
     DartClass.constrEndsAtLine := Some 3%Z;
     DartClass.constrDifferent := false;
     DartClass.isArray := false;
     DartClass.classContent :=
       "class Reconstructor {" ++ Js.nl ++ "  final int a;" ++ Js.nl
       ++ "  Reconstructor({this.a});" ++ Js.nl ++ "}";
     DartClass.toInsert := "";
     DartClass.toReplace := [];
     DartClass.isLastInFile := true;
     DartClass.abstract := false |}.

(** A class whose two fields are both called [id]. *)
Definition twoIds : DartClass.t :=
  {| DartClass.name := Some "User";
     DartClass.fullGenericType := "";
     DartClass.superclass := None;
     DartClass.interfaces := [];
     DartClass.mixins := [];
     DartClass.constr := None;
     DartClass.properties :=
       [DartClassProperty.mk "int" "id" "id" 2 true false false;
        DartClassProperty.mk "String" "id" "id" 3 true false false];
     DartClass.startsAtLine := Some 1%Z;
     DartClass.endsAtLine := Some 4%Z;
     DartClass.constrStartsAtLine := None;
     DartClass.constrEndsAtLine := None;
     DartClass.constrDifferent := false;
     DartClass.isArray := false;
     DartClass.classContent :=
       "class User {" ++ Js.nl ++ "  final int id;" ++ Js.nl
       ++ "  final String id;" ++ Js.nl ++ "}";
     DartClass.toInsert := "";
     DartClass.toReplace := [];
     DartClass.isLastInFile := true;
     DartClass.abstract := false |}.

(** A class with a comment line, one field, a method that is to be
    replaced and no constructor yet. *)
Definition point : DartClass.t :=
  {| DartClass.name := Some "Point";
     DartClass.fullGenericType := "";
     DartClass.superclass := None;
     DartClass.interfaces := [];
     DartClass.mixins := [];
     DartClass.constr := Some ("  Point(this.x);" ++ Js.nl);
     DartClass.properties :=
       [DartClassProperty.mk "int" "x" "x" 12 true false false];
     DartClass.startsAtLine := Some 10%Z;
     DartClass.endsAtLine := Some 15%Z;
     DartClass.constrStartsAtLine := None;
     DartClass.constrEndsAtLine := None;
     DartClass.constrDifferent := false;
     DartClass.isArray := false;
     DartClass.classContent :=
       "class Point {" ++ Js.nl ++ "  // a point on a line" ++ Js.nl
       ++ "  final int x;" ++ Js.nl ++ "  // keep me" ++ Js.nl
       ++ "  String toString() => 'Point';" ++ Js.nl ++ "}";
     DartClass.toInsert := "";
     DartClass.toReplace :=
       [ClassPart.mk "toString()" (Some 14%Z) (Some 14%Z)
          (Some "  String toString() => 'Point';")
          (Some "  String toString() => 'Point(x: $x)';")];
     DartClass.isLastInFile := true;
     DartClass.abstract := false |}.

(** The import block of scenario C. *)
Definition scenarioC : string :=
  "import 'package:flutter/material.dart';" ++ Js.nl ++ "import 'dart:async';".

(** A block that is already formatted. *)
Definition alreadyFormatted : string :=
  "import 'a.dart';" ++ Js.nl ++ "import 'b.dart';" ++ Js.nl.

(** A class with one field whose constructor and [toString] are still to
    be written. *)
Definition counter : DartClass.t :=
  {| DartClass.name := Some "Counter";
     DartClass.fullGenericType := "";
     DartClass.superclass := Some "Equatable";
     DartClass.interfaces := ["Comparable<Counter>"; "Named"];
     DartClass.mixins := [];
     DartClass.constr := Some ("  Counter(this.n);" ++ Js.nl);
     DartClass.properties :=
       [DartClassProperty.mk "int" "n" "n" 2 true false false];
     DartClass.startsAtLine := Some 1%Z;
     DartClass.endsAtLine := Some 3%Z;
     DartClass.constrStartsAtLine := None;
     DartClass.constrEndsAtLine := None;
     DartClass.constrDifferent := false;
     DartClass.isArray := false;
     DartClass.classContent :=
       "class Counter extends Equatable implements Comparable<Counter>,Named {"
       ++ Js.nl ++ "  final int n;" ++ Js.nl ++ "}";
     DartClass.toInsert :=
       Js.nl ++ "  @override" ++ Js.nl
       ++ "  String toString() => 'Counter(n: $n)';" ++ Js.nl;
     DartClass.toReplace := [];
     DartClass.isLastInFile := true;
     DartClass.abstract := false |}.

(** A class whose closing brace was never found. *)
Definition unterminated : DartClass.t :=
  {| DartClass.name := Some "Open";
     DartClass.fullGenericType := "";
     DartClass.superclass := None;
     DartClass.interfaces := [];
     DartClass.mixins := [];
     DartClass.constr := None;
     DartClass.properties :=
       [DartClassProperty.mk "int" "n" "n" 4 true false false];
     DartClass.startsAtLine := Some 3%Z;
     DartClass.endsAtLine := None;
     DartClass.constrStartsAtLine := None;
     DartClass.constrEndsAtLine := None;
     DartClass.constrDifferent := false;
     DartClass.isArray := false;
     DartClass.classContent := "class Open {" ++ Js.nl ++ "  final int n;";
     DartClass.toInsert := "";
     DartClass.toReplace := [];
     DartClass.isLastInFile := true;
     DartClass.abstract := false |}.

(** Two sources that hold the same two imports in opposite orders. *)
Definition sourceAB : string :=
  "import 'a.dart';" ++ Js.nl ++ "import 'dart:io';" ++ Js.nl.

Definition sourceBA : string :=
  "import 'dart:io';" ++ Js.nl ++ "import 'a.dart';" ++ Js.nl.

(** A source with a comment, a [library] directive and a blank line in
    front of its imports. *)
Definition withPrelude : string :=
  "// Copyright the authors." ++ Js.nl ++ "library shapes;" ++ Js.nl ++ Js.nl
  ++ sourceAB.

(** A property that holds a set of strings. *)
Definition tags : DartClassProperty.t :=
  DartClassProperty.mk "Set<String>" "tags" "tags" 2 true false false.

(** A class with a constant constructor. *)
Definition constant : DartClass.t :=
  {| DartClass.name := Some "Unit";
     DartClass.fullGenericType := "";
     DartClass.superclass := Some "State<Home>";
     DartClass.interfaces := [];
     DartClass.mixins := [];
     DartClass.constr := Some "const Unit({this.id});";
     DartClass.properties :=
       [DartClassProperty.mk "int" "id" "id" 2 true false false];
     DartClass.startsAtLine := Some 1%Z;
     DartClass.endsAtLine := Some 4%Z;
     DartClass.constrStartsAtLine := Some 3%Z;
     DartClass.constrEndsAtLine := Some 3%Z;
     DartClass.constrDifferent := false;
     DartClass.isArray := false;
     DartClass.classContent :=
       "class Unit extends State<Home> {" ++ Js.nl ++ "  final int id;" ++ Js.nl
       ++ "  const Unit({this.id});" ++ Js.nl ++ "}";
     DartClass.toInsert := "";
     DartClass.toReplace := [];
     DartClass.isLastInFile := true;
     DartClass.abstract := false |}.


(** A valid class that starts and ends on one line. *)
Definition oneLine : DartClass.t :=
  {| DartClass.name := Some "Foo";
     DartClass.fullGenericType := "";
     DartClass.superclass := None;
     DartClass.interfaces := [];
     DartClass.mixins := [];
     DartClass.constr := None;
     DartClass.properties :=
       [DartClassProperty.mk "String" "name" "name" 1 true false false];
     DartClass.startsAtLine := Some 1%Z;
     DartClass.endsAtLine := Some 1%Z;
     DartClass.constrStartsAtLine := None;
     DartClass.constrEndsAtLine := None;
     DartClass.constrDifferent := false;
     DartClass.isArray := false;
     DartClass.classContent := "class Foo { final String name; }";
     DartClass.toInsert := "  String toString() => 'Foo';" ++ Js.nl;
     DartClass.toReplace := [];
     DartClass.isLastInFile := true;
     DartClass.abstract := false |}.

End Sample.

(** * Properties *)

(** ** Strings *)

Lemma append_nil_r (s : string) : s ++ "" = s.
Proof. induction s as [|c s IH]; simpl; [reflexivity | now rewrite IH]. Qed.

Lemma append_assoc (a b c : string) : (a ++ b) ++ c = a ++ (b ++ c).
Proof. induction a as [|x a IH]; simpl; [reflexivity | now rewrite IH]. Qed.

Lemma length_append (a b : string) :
  String.length (a ++ b) = String.length a + String.length b.
Proof. induction a as [|x a IH]; simpl; [reflexivity | now rewrite IH]. Qed.

Lemma removeEnd_eq (s e : string) :
  removeEnd s e =
  if String.eqb s e then ""
  else match s with
       | EmptyString => ""
       | String c r => String c (removeEnd r e)
       end.
Proof. destruct s; reflexivity. Qed.

(** When the ending fits into the second part, the first part is kept. *)
Lemma removeEnd_append_l (a b e : string) :
  String.length e <= String.length b ->
  removeEnd (a ++ b) e = a ++ removeEnd b e.
Proof.
  intros Hlen. induction a as [|c a IH]; [reflexivity|].
  change (String c a ++ b) with (String c (a ++ b)).
  rewrite removeEnd_eq.
  destruct (String.eqb_spec (String c (a ++ b)) e) as [E|_].
  - apply (f_equal String.length) in E. simpl in E.
    rewrite length_append in E. lia.
  - rewrite IH. reflexivity.
Qed.

Lemma removeEnd_same (e : string) : removeEnd e e = "".
Proof. rewrite removeEnd_eq. now rewrite String.eqb_refl. Qed.

(** An ending that is there is removed. *)
Lemma removeEnd_append (s e : string) : removeEnd (s ++ e) e = s.
Proof.
  rewrite removeEnd_append_l by lia.
  now rewrite removeEnd_same, append_nil_r.
Qed.

Lemma arr_includes_In (l : list string) (x : string) :
  Js.arr_includes l x = true <-> In x l.
Proof.
  induction l as [|y l IH]; simpl.
  - split; [discriminate | tauto].
  - rewrite orb_true_iff, IH, String.eqb_eq. tauto.
Qed.

(** ** DartClass: the constructor text *)

(** C10: a class whose stored constructor text is [null] is reported as
    having a named constructor. *)
Theorem hasNamedConstructor_null (c : DartClass.t) :
  DartClass.constr c = None -> DartClass.hasNamedConstructor c = true.
Proof.
  intros H. unfold DartClass.hasNamedConstructor. now rewrite H.
Qed.

Lemma hasNamedConstructor_null_witness :
  DartClass.hasNamedConstructor Sample.twoIds = true.
Proof.
  apply (hasNamedConstructor_null Sample.twoIds). reflexivity.
Defined.

(** C9, at the class [Reconstructor]: the stored constructor text has no
    leading [const] and begins with the class name followed by [({], so
    the test of the specification succeeds; [hasNamedConstructor] is false,
    because the first [const] that [replace] finds is the one inside the
    class name. *)
Theorem hasNamedConstructor_const_in_name :
  let c := Sample.reconstructor in
  DartClass.constr c = Some "Reconstructor({this.a});"
  /\ DartClass.name c = Some "Reconstructor"
  /\ Spec.stripLeadingConst "Reconstructor({this.a});" = "Reconstructor({this.a});"
  /\ Spec.beginsWithNamedParameters "Reconstructor" "Reconstructor({this.a});" = true
  /\ Js.replace "Reconstructor({this.a});" "const" "" = "Reructor({this.a});"
  /\ DartClass.hasNamedConstructor c = false.
Proof. repeat split. Qed.

(** With a [const] keyword in front, and a class name that [replace] does
    not touch, the code and the specification agree. *)
Lemma hasNamedConstructor_examples :
  let withConstr name text :=
    DartClass.mk (Some name) "" None [] [] (Some text) [] (Some 1%Z) (Some 3%Z)
      None None false false "" "" [] false false in
  DartClass.hasNamedConstructor (withConstr "Foo" "const Foo({this.a});") = true
  /\ Spec.beginsWithNamedParameters "Foo" "const Foo({this.a});" = true
  /\ DartClass.hasNamedConstructor (withConstr "Foo" "Foo(this.a);") = false
  /\ Spec.beginsWithNamedParameters "Foo" "Foo(this.a);" = false
  /\ DartClass.hasNamedConstructor (withConstr "Foo" "  Foo({this.a = const []});") = true
  /\ Spec.beginsWithNamedParameters "Foo" "  Foo({this.a = const []});" = true.
Proof. repeat split. Qed.

(** ** DartClass: validity *)

Lemma uniquePropNames_loop_spec (ps : list DartClassProperty.t) :
  forall seen : list string,
    DartClass.uniquePropNames_loop ps seen = true <->
    NoDup (map DartClassProperty.name ps)
    /\ (forall n, In n (map DartClassProperty.name ps) -> ~ In n seen).
Proof.
  induction ps as [|p ps IH]; intros seen; simpl.
  - split; [intros _; split; [constructor | tauto] | reflexivity].
  - destruct (Js.arr_includes seen (DartClassProperty.name p)) eqn:E.
    + apply arr_includes_In in E. split; [discriminate|].
      intros [_ H]. exfalso. apply (H (DartClassProperty.name p)); auto.
    + assert (Hn : ~ In (DartClassProperty.name p) seen).
      { intros H. apply arr_includes_In in H. congruence. }
      rewrite IH. split.
      * intros [Hnd Hs]. split.
        -- constructor; [|exact Hnd].
           intros Hin. apply (Hs _ Hin), in_or_app. right. now left.
        -- intros n [<-|Hin]; [exact Hn|].
           intros Hseen. apply (Hs _ Hin), in_or_app. now left.
      * intros [Hnd Hs]. inversion Hnd as [|x l Hx Hnd']; subst. split; [exact Hnd'|].
        intros n Hin Hseen. apply in_app_or in Hseen as [Hseen|[<-|[]]].
        -- apply (Hs n); auto.
        -- contradiction.
Qed.

Lemma uniquePropNames_NoDup (c : DartClass.t) :
  DartClass.uniquePropNames c = true <->
  NoDup (map DartClassProperty.name (DartClass.properties c)).
Proof.
  unfold DartClass.uniquePropNames. rewrite uniquePropNames_loop_spec.
  split; [tauto | intros H; split; [exact H | intros n _ []]].
Qed.

Lemma notNull_true {A : Type} (o : option A) :
  Js.notNull o = true <-> o <> None.
Proof. destruct o; simpl; split; congruence. Qed.

Lemma hasProperties_true (c : DartClass.t) :
  DartClass.hasProperties c = true <-> DartClass.properties c <> [].
Proof.
  unfold DartClass.hasProperties.
  destruct (DartClass.properties c) as [|p ps]; cbn; split;
    intros H; try discriminate; try reflexivity.
  now elim H.
Qed.

Lemma bool_false_iff (b : bool) (P : Prop) :
  (b = true <-> P) -> (b = false <-> ~ P).
Proof.
  intros [H1 H2]. destruct b; split; intros H.
  - discriminate.
  - exfalso. apply H, H1. reflexivity.
  - intros HP. apply H2 in HP. discriminate.
  - reflexivity.
Qed.

(** Two positions of a list that hold the same value witness a duplicate. *)
Lemma NoDup_nth_error_eq {A : Type} (l : list A) (i j : nat) (x : A) :
  NoDup l -> nth_error l i = Some x -> nth_error l j = Some x -> i = j.
Proof.
  intros Hnd Hi Hj.
  apply (proj1 (NoDup_nth_error l) Hnd).
  - apply nth_error_Some. congruence.
  - congruence.
Qed.

(** C3: [isValid] holds exactly when the start of the class was detected,
    the class has an ending, it has at least one property and the names of
    its properties are pairwise different; a class in which two properties
    share their name is not valid. *)
Theorem isValid_spec (c : DartClass.t) :
  (DartClass.isValid c = true <->
     DartClass.startsAtLine c <> None
     /\ DartClass.endsAtLine c <> None
     /\ DartClass.properties c <> []
     /\ NoDup (map DartClassProperty.name (DartClass.properties c)))
  /\ (forall (i j : nat) (p q : DartClassProperty.t),
        i <> j ->
        nth_error (DartClass.properties c) i = Some p ->
        nth_error (DartClass.properties c) j = Some q ->
        DartClassProperty.name p = DartClassProperty.name q ->
        DartClass.isValid c = false).
Proof.
  assert (Hiff : DartClass.isValid c = true <->
     DartClass.startsAtLine c <> None
     /\ DartClass.endsAtLine c <> None
     /\ DartClass.properties c <> []
     /\ NoDup (map DartClassProperty.name (DartClass.properties c))).
  { unfold DartClass.isValid, DartClass.classDetected, DartClass.hasEnding.
    rewrite !andb_true_iff, !notNull_true, hasProperties_true,
      uniquePropNames_NoDup. tauto. }
  split; [exact Hiff|].
  intros i j p q Hij Hp Hq Hname.
  destruct (DartClass.isValid c) eqn:E; [|reflexivity].
  exfalso. apply Hij.
  destruct (proj1 Hiff eq_refl) as (_ & _ & _ & Hnd).
  apply (NoDup_nth_error_eq _ i j (DartClassProperty.name p) Hnd).
  - now rewrite nth_error_map, Hp.
  - now rewrite nth_error_map, Hq, Hname.
Qed.

Lemma isValid_spec_witness : DartClass.isValid Sample.twoIds = false.
Proof.
  apply (proj2 (isValid_spec Sample.twoIds) 0 1
           (DartClassProperty.mk "int" "id" "id" 2 true false false)
           (DartClassProperty.mk "String" "id" "id" 3 true false false)).
  - discriminate.
  - reflexivity.
  - reflexivity.
  - reflexivity.
Defined.

(** ** DartClass: the issue message *)

(** C4: the message of [issue] follows the order no properties, no ending,
    names not unique, generic; it is always one of these four texts. *)
Theorem issue_priority (c : DartClass.t) :
  let n := Js.str (DartClass.name c) in
  let unique := NoDup (map DartClassProperty.name (DartClass.properties c)) in
  (DartClass.properties c = [] -> DartClass.issue c = Spec.noFields n)
  /\ (DartClass.properties c <> [] -> DartClass.endsAtLine c = None ->
      DartClass.issue c = Spec.noEnding n)
  /\ (DartClass.properties c <> [] -> DartClass.endsAtLine c <> None ->
      ~ unique -> DartClass.issue c = Spec.duplicateNames n)
  /\ (DartClass.properties c <> [] -> DartClass.endsAtLine c <> None ->
      unique -> DartClass.issue c = Spec.generic n)
  /\ In (DartClass.issue c)
        [Spec.noFields n; Spec.noEnding n; Spec.duplicateNames n; Spec.generic n].
Proof.
  intros n unique.
  assert (Hgen : removeEnd (n ++ " couldn't be converted to a data class: ") ": "
                 ++ "." = Spec.generic n).
  { change (n ++ " couldn't be converted to a data class: ")
      with (n ++ (" couldn't be converted to a data class" ++ ": ")).
    rewrite <- append_assoc, removeEnd_append, append_assoc. reflexivity. }
  pose proof (hasProperties_true c) as Hp.
  pose proof (@notNull_true Z (DartClass.endsAtLine c)) as He.
  pose proof (uniquePropNames_NoDup c) as Hu. fold unique in Hu.
  pose proof (bool_false_iff _ _ Hp) as Hp'.
  pose proof (bool_false_iff _ _ He) as He'.
  pose proof (bool_false_iff _ _ Hu) as Hu'.
  assert (H1 : DartClass.properties c = [] -> DartClass.issue c = Spec.noFields n).
  { intros H. unfold DartClass.issue. fold n.
    replace (DartClass.hasProperties c) with false.
    - cbn [negb]. now rewrite append_assoc.
    - symmetry. apply Hp'. intros H'. now apply H'. }
  assert (H2 : DartClass.properties c <> [] -> DartClass.endsAtLine c = None ->
               DartClass.issue c = Spec.noEnding n).
  { intros Hps H. unfold DartClass.issue, DartClass.hasEnding. fold n.
    rewrite (proj2 Hp Hps), H. cbn [negb Js.notNull].
    now rewrite append_assoc. }
  assert (H3 : DartClass.properties c <> [] -> DartClass.endsAtLine c <> None ->
               ~ unique -> DartClass.issue c = Spec.duplicateNames n).
  { intros Hps Hend H. unfold DartClass.issue, DartClass.hasEnding. fold n.
    rewrite (proj2 Hp Hps), (proj2 He Hend), (proj2 Hu' H). cbn [negb].
    now rewrite append_assoc. }
  assert (H4 : DartClass.properties c <> [] -> DartClass.endsAtLine c <> None ->
               unique -> DartClass.issue c = Spec.generic n).
  { intros Hps Hend H. unfold DartClass.issue, DartClass.hasEnding. fold n.
    rewrite (proj2 Hp Hps), (proj2 He Hend), (proj2 Hu H). exact Hgen. }
  split; [exact H1|]. split; [exact H2|]. split; [exact H3|]. split; [exact H4|].
  destruct (DartClass.hasProperties c) eqn:Ep.
  - assert (Hps : DartClass.properties c <> []) by (now apply Hp).
    destruct (Js.notNull (DartClass.endsAtLine c)) eqn:Ee.
    + assert (Hend : DartClass.endsAtLine c <> None) by (now apply He).
      destruct (DartClass.uniquePropNames c) eqn:Eu.
      * rewrite (H4 Hps Hend (proj1 Hu eq_refl)).
        right; right; right; left; reflexivity.
      * rewrite (H3 Hps Hend (proj1 Hu' eq_refl)).
        right; right; left; reflexivity.
    + assert (Hend : DartClass.endsAtLine c = None).
      { destruct (DartClass.endsAtLine c); [discriminate | reflexivity]. }
      rewrite (H2 Hps Hend). right; left; reflexivity.
  - assert (Hps : DartClass.properties c = []).
    { destruct (DartClass.properties c); [reflexivity|].
      exfalso. apply (proj1 Hp'); [reflexivity | discriminate]. }
    rewrite (H1 Hps). left; reflexivity.
Qed.

Lemma issue_priority_witness :
  DartClass.issue Sample.twoIds
  = "User couldn't be converted to a data class: Class doesn't have unique property names!".
Proof.
  apply (proj1 (proj2 (proj2 (issue_priority Sample.twoIds)))).
  - discriminate.
  - discriminate.
  - intros H. inversion H as [|x l Hx _]; subst. apply Hx. now left.
Defined.

(** ** DartClassProperty *)

(** A collection type starts with the first letter of the collection. *)
Lemma isCollectionType_head (p : DartClassProperty.t) (a : ascii) (ty : string) :
  DartClassProperty.isCollectionType p (String a ty) = true ->
  exists r, DartClassProperty.rawType p = String a r.
Proof.
  unfold DartClassProperty.isCollectionType, Js.startsWith.
  intros H. apply orb_true_iff in H as [H|H].
  - apply String.eqb_eq in H. eauto.
  - destruct (DartClassProperty.rawType p) as [|c r]; [discriminate|].
    cbn [String.append prefix] in H.
    destruct (ascii_dec a c) as [->|]; [eauto | discriminate].
Qed.

(** A list is neither a map nor a set. *)
Lemma isList_exclusive (p : DartClassProperty.t) :
  DartClassProperty.isList p = true ->
  DartClassProperty.isMap p = false /\ DartClassProperty.isSet p = false.
Proof.
  intros H. apply isCollectionType_head in H as [r Hr].
  split.
  - destruct (DartClassProperty.isMap p) eqn:E; [|reflexivity].
    apply isCollectionType_head in E as [r' Hr']. congruence.
  - destruct (DartClassProperty.isSet p) eqn:E; [|reflexivity].
    apply isCollectionType_head in E as [r' Hr']. congruence.
Qed.

Lemma defaultFor_chain (t : string) :
  Spec.defaultFor t =
  if String.eqb t "String" then "''"
  else if String.eqb t "num" then "0"
  else if String.eqb t "int" then "0"
  else if String.eqb t "double" then "0.0"
  else if String.eqb t "bool" then "false"
  else if String.eqb t "dynamic" then "null"
  else t ++ "()".
Proof.
  unfold Spec.defaultFor, Spec.defaultTable, Spec.lookup.
  rewrite (String.eqb_sym "String" t), (String.eqb_sym "num" t),
    (String.eqb_sym "int" t), (String.eqb_sym "double" t),
    (String.eqb_sym "bool" t), (String.eqb_sym "dynamic" t).
  destruct (String.eqb t "String"); [reflexivity|].
  destruct (String.eqb t "num"); [reflexivity|].
  destruct (String.eqb t "int"); [reflexivity|].
  destruct (String.eqb t "double"); [reflexivity|].
  destruct (String.eqb t "bool"); [reflexivity|].
  destruct (String.eqb t "dynamic"); reflexivity.
Qed.

(** C7: the default value is [const []] for a list, [const {}] for a map
    or a set (a list is neither), and otherwise the entry of the table for
    the base type, [Type()] for a type outside the table; a field declared
    as [List<int>] is a list whose element type is [int] and whose default
    value is [const []]. *)
Theorem defValue_table (toVarName : string -> string) (p : DartClassProperty.t) :
  DartClassProperty.defValue p =
    (if DartClassProperty.isList p then "const []"
     else if DartClassProperty.isMap p || DartClassProperty.isSet p then "const {}"
     else Spec.defaultFor (DartClassProperty.type p))
  /\ DartClassProperty.isList p
     && (DartClassProperty.isMap p || DartClassProperty.isSet p) = false
  /\ (forall (name : string) (line : Z) (isFinal isConst : bool),
        let q := DartClassProperty.newDartClassProperty toVarName
                   "List<int>" name line isFinal isConst in
        DartClassProperty.isList q = true
        /\ DartClassProperty.type (DartClassProperty.listType toVarName q) = "int"
        /\ DartClassProperty.defValue q = "const []").
Proof.
  split; [|split].
  - unfold DartClassProperty.defValue. rewrite defaultFor_chain. reflexivity.
  - destruct (DartClassProperty.isList p) eqn:E; [|reflexivity].
    destruct (isList_exclusive p E) as [-> ->]. reflexivity.
  - intros name line isFinal isConst. repeat split.
Qed.

(** [isPrimitive] in terms of the getters it calls: the type of [listType]
    is one of [String], [num], [dynamic], [bool], [int], [double], or the
    property is a map. *)
Lemma isPrimitive_spec (toVarName : string -> string) (p : DartClassProperty.t) :
  DartClassProperty.isPrimitive toVarName p = true <->
  In (DartClassProperty.type (DartClassProperty.listType toVarName p))
     Spec.primitiveNames
  \/ DartClassProperty.isMap p = true.
Proof.
  unfold DartClassProperty.isPrimitive, DartClassProperty.isDouble,
    DartClassProperty.isInt, Spec.primitiveNames.
  set (t := DartClassProperty.type (DartClassProperty.listType toVarName p)).
  rewrite !orb_true_iff, !String.eqb_eq. cbn [In].
  split.
  - intros [[[[[[H|H]|H]|H]|H]|H]|H]; auto; left; rewrite H; tauto.
  - intros [[H|[H|[H|[H|[H|[H|[]]]]]]]|H]; auto 10.
Qed.

(** The element type of a list or set is the text between the angle
    brackets, [dynamic] when there is none; any other property is its own
    [listType]. *)
Lemma listType_examples (toVarName : string -> string) :
  let prop ty := DartClassProperty.mk ty "v" "v" 1 true false false in
  DartClassProperty.type (DartClassProperty.listType toVarName (prop "Set<String>?")) = "String"
  /\ DartClassProperty.type (DartClassProperty.listType toVarName (prop "List")) = "dynamic"
  /\ DartClassProperty.type (DartClassProperty.listType toVarName (prop "int?")) = "int"
  /\ DartClassProperty.isPrimitive toVarName (prop "List<Point>") = false
  /\ DartClassProperty.isPrimitive toVarName (prop "Map<String, Point>") = true.
Proof. repeat split. Qed.

(** ** Sorting *)

Lemma insert_sorted_perm (x : string) (l : list string) :
  Permutation (Js.insert_sorted x l) (x :: l).
Proof.
  induction l as [|y l IH]; simpl; [reflexivity|].
  destruct (String.leb x y); [reflexivity|].
  rewrite IH. apply perm_swap.
Qed.

Lemma sort_perm (l : list string) : Permutation (Js.sort l) l.
Proof.
  induction l as [|x l IH]; simpl; [reflexivity|].
  rewrite insert_sorted_perm. now constructor.
Qed.

Lemma insert_sorted_sorted (x : string) (l : list string) :
  Spec.alphabetical l -> Spec.alphabetical (Js.insert_sorted x l).
Proof.
  unfold Spec.alphabetical.
  induction l as [|y l IH]; intros Hs; simpl.
  - repeat constructor.
  - destruct (String.leb x y) eqn:E.
    + constructor; [exact Hs | now constructor].
    + inversion Hs as [|y' l' Hs' Hhd]; subst.
      constructor; [now apply IH|].
      assert (Hyx : String.leb y x = true).
      { destruct (String.leb_total x y); congruence. }
      destruct l as [|z l]; simpl.
      * now constructor.
      * destruct (String.leb x z); constructor; [exact Hyx|].
        now inversion Hhd.
Qed.

Lemma sort_sorted (l : list string) : Spec.alphabetical (Js.sort l).
Proof.
  induction l as [|x l IH]; simpl.
  - constructor.
  - now apply insert_sorted_sorted.
Qed.

(** Sorting a sorted array changes nothing. *)
Lemma sort_of_sorted (l : list string) : Spec.alphabetical l -> Js.sort l = l.
Proof.
  unfold Spec.alphabetical.
  induction l as [|x l IH]; intros Hs; simpl; [reflexivity|].
  inversion Hs as [|x' l' Hs' Hhd]; subst.
  rewrite (IH Hs').
  destruct Hhd as [|y l Hxy]; simpl; [reflexivity|].
  now rewrite Hxy.
Qed.

Lemma sort_idempotent (l : list string) : Js.sort (Js.sort l) = Js.sort l.
Proof. apply sort_of_sorted, sort_sorted. Qed.

Lemma sort_In (l : list string) (x : string) : In x (Js.sort l) <-> In x l.
Proof.
  split; apply Permutation_in; [apply sort_perm | symmetry; apply sort_perm].
Qed.

(** ** Imports: the formatted block *)

Lemma bucket_eqb_eq (a b : Spec.Bucket) : Spec.bucket_eqb a b = true <-> a = b.
Proof. destruct a, b; simpl; split; congruence. Qed.

Lemma pushStatement_array (workspace : option string) (a : Imports.Arrays)
    (statement : string) (b : Spec.Bucket) :
  Spec.array (Imports.pushStatement workspace a statement) b =
  (Spec.array a b
   ++ (if Spec.bucket_eqb (Spec.bucketOf workspace statement) b
       then [statement] else []))%list.
Proof.
  unfold Imports.pushStatement, Spec.bucketOf, Spec.referencesWorkspace.
  destruct (Js.startsWith statement "export");
    [destruct b; simpl; now rewrite ?app_nil_r|].
  destruct (Js.startsWith statement "part");
    [destruct b; simpl; now rewrite ?app_nil_r|].
  destruct (Js.includes statement "dart:");
    [destruct b; simpl; now rewrite ?app_nil_r|].
  destruct (match workspace with
            | Some w => Js.includes statement ("package:" ++ w)
            | None => false
            end);
    [destruct b; simpl; now rewrite ?app_nil_r|].
  destruct (Js.includes statement "package:");
    destruct b; simpl; now rewrite ?app_nil_r.
Qed.

(** The loop over [this.values] sorts every directive into its bucket and
    keeps the source order inside a bucket. *)
Lemma fold_pushStatement_array (workspace : option string) (values : list string) :
  forall (a : Imports.Arrays) (b : Spec.Bucket),
    Spec.array (fold_left (Imports.pushStatement workspace) values a) b =
    (Spec.array a b ++ Spec.directivesOf workspace b values)%list.
Proof.
  induction values as [|s values IH]; intros a b; simpl.
  - now rewrite app_nil_r.
  - rewrite IH, pushStatement_array, <- app_assoc.
    destruct (Spec.bucket_eqb (Spec.bucketOf workspace s) b); reflexivity.
Qed.

Lemma unlines_app (a b : list string) :
  Spec.unlines (a ++ b) = Spec.unlines a ++ Spec.unlines b.
Proof.
  induction a as [|s a IH]; simpl; [reflexivity|].
  now rewrite IH, !append_assoc.
Qed.

Lemma addImports_loop_lines (l : list string) :
  forall acc : string,
    Imports.addImports_loop l acc = acc ++ Spec.unlines (Spec.bucketLines l).
Proof.
  induction l as [|s l IH]; intros acc.
  - simpl. now rewrite append_nil_r.
  - cbn [Imports.addImports_loop]. rewrite IH.
    destruct l as [|s' l].
    + simpl. now rewrite !append_assoc.
    + cbn [Spec.bucketLines app Spec.unlines]. now rewrite !append_assoc.
Qed.

Lemma addImports_lines (l : list string) (acc : string) :
  Imports.addImports l acc = acc ++ Spec.unlines (Spec.bucketLines (Js.sort l)).
Proof. apply addImports_loop_lines. Qed.

(** The text of [formatted]: the six buckets, each one sorted. *)
Lemma formatted_layout (folder : option string) (imp : Imports.t) :
  let workspace := Imports.workspaceOf (Imports.projectName imp) folder in
  Imports.formatted folder imp =
  Spec.layout
    (fun b => Js.sort (Spec.directivesOf workspace b (Imports.values imp))).
Proof.
  intros workspace. unfold Imports.formatted, Imports.hasImports.
  destruct (Imports.values imp) as [|v vs] eqn:Ev; [reflexivity|].
  cbn [List.length Nat.ltb Nat.leb negb]. fold workspace.
  set (a := fold_left (Imports.pushStatement workspace) (v :: vs) Imports.noArrays).
  assert (Ha : forall b, Spec.array a b = Spec.directivesOf workspace b (v :: vs)).
  { intros b. unfold a. rewrite fold_pushStatement_array. now destruct b. }
  rewrite !addImports_lines.
  change (Imports.dartImports a) with (Spec.array a Spec.DartImport).
  change (Imports.packageImports a) with (Spec.array a Spec.PackageImport).
  change (Imports.packageLocalImports a) with (Spec.array a Spec.LocalPackageImport).
  change (Imports.relativeImports a) with (Spec.array a Spec.RelativeImport).
  change (Imports.exports a) with (Spec.array a Spec.ExportStatement).
  change (Imports.partStatements a) with (Spec.array a Spec.PartStatement).
  rewrite !Ha.
  unfold Spec.layout, Spec.layoutLines, Spec.order. cbn [flat_map].
  rewrite !unlines_app. cbn [Spec.unlines].
  rewrite append_nil_r, !append_assoc. reflexivity.
Qed.

(** C5: the formatted text is made of six buckets in the fixed order
    ([dart:] imports, package imports, package imports of the workspace,
    relative imports, exports, parts); the content of a bucket is its
    directives in alphabetical order, every bucket that is not empty is
    followed by one blank line, and the last blank line is stripped.  The
    block of scenario C is written with the [dart:async] import, a blank
    line and then the package import. *)
Theorem formatted_buckets (folder : option string) (imp : Imports.t) :
  let workspace := Imports.workspaceOf (Imports.projectName imp) folder in
  (exists content : Spec.Bucket -> list string,
      (forall b, Permutation (content b)
                   (Spec.directivesOf workspace b (Imports.values imp))
                 /\ Spec.alphabetical (content b))
      /\ Imports.formatted folder imp = Spec.layout content)
  /\ (forall projectName : option string,
        Imports.format folder projectName Sample.scenarioC
        = "import 'dart:async';" ++ Js.nl ++ Js.nl
          ++ "import 'package:flutter/material.dart';" ++ Js.nl).
Proof.
  intros workspace. split.
  - exists (fun b => Js.sort (Spec.directivesOf workspace b (Imports.values imp))).
    split.
    + intros b. split; [apply sort_perm | apply sort_sorted].
    + apply formatted_layout.
  - intros projectName. unfold Imports.format.
    set (block := Imports.new Sample.scenarioC projectName).
    assert (Hv : Imports.values block
                 = ["import 'package:flutter/material.dart';"; "import 'dart:async';"])
      by reflexivity.
    assert (Hp : Imports.projectName block = projectName) by reflexivity.
    rewrite formatted_layout, Hv, Hp.
    set (ws := Imports.workspaceOf projectName folder).
    assert (Hd : Spec.bucketOf ws "import 'dart:async';" = Spec.DartImport)
      by reflexivity.
    assert (Hk : Spec.bucketOf ws "import 'package:flutter/material.dart';"
                 = Spec.LocalPackageImport
                 \/ Spec.bucketOf ws "import 'package:flutter/material.dart';"
                 = Spec.PackageImport).
    { unfold Spec.bucketOf.
      destruct (Spec.referencesWorkspace ws "import 'package:flutter/material.dart';");
        [left | right]; reflexivity. }
    unfold Spec.layout, Spec.layoutLines, Spec.order, Spec.directivesOf.
    cbn [flat_map filter].
    rewrite Hd. destruct Hk as [Hk|Hk]; rewrite Hk; reflexivity.
Qed.

(** ** Lines and white space *)

Lemma trimLeft_head (s : string) :
  Js.trimLeft s = "" \/ exists c r, Js.trimLeft s = String c r /\ Js.is_ws c = false.
Proof.
  induction s as [|c s IH]; simpl; [now left|].
  destruct (Js.is_ws c) eqn:E; [exact IH|].
  right. exists c, s. now split.
Qed.

Lemma trimRight_head (c : ascii) (r : string) :
  Js.is_ws c = false -> exists r', Js.trimRight (String c r) = String c r'.
Proof.
  intros H. simpl. destruct (Js.trimRight r); [|eauto].
  rewrite H. eauto.
Qed.

Lemma trimRight_idempotent (s : string) :
  Js.trimRight (Js.trimRight s) = Js.trimRight s.
Proof.
  induction s as [|c s IH]; [reflexivity|].
  cbn [Js.trimRight]. destruct (Js.trimRight s) as [|d t] eqn:E.
  - destruct (Js.is_ws c) eqn:W; [reflexivity|].
    cbn [Js.trimRight]. now rewrite W.
  - cbn [Js.trimRight] in IH |- *.
    destruct (Js.trimRight t) as [|e u] eqn:E'.
    + destruct (Js.is_ws d); [discriminate | congruence].
    + now rewrite IH.
Qed.

(** Trimming a trimmed line changes nothing. *)
Lemma trim_idempotent (s : string) : Js.trim (Js.trim s) = Js.trim s.
Proof.
  unfold Js.trim.
  destruct (trimLeft_head s) as [E|(c & r & E & W)]; rewrite E; [reflexivity|].
  destruct (trimRight_head c r W) as [r' E'].
  assert (Hl : Js.trimLeft (Js.trimRight (String c r)) = Js.trimRight (String c r)).
  { rewrite E'. cbn [Js.trimLeft]. now rewrite W. }
  rewrite Hl. apply trimRight_idempotent.
Qed.

Lemma hasNewline_trimLeft (s : string) :
  Js.hasNewline s = false -> Js.hasNewline (Js.trimLeft s) = false.
Proof.
  induction s as [|c s IH]; [reflexivity|].
  intros H. cbn [Js.trimLeft]. destruct (Js.is_ws c); [|exact H].
  apply IH. cbn [Js.hasNewline] in H. now apply orb_false_iff in H.
Qed.

Lemma hasNewline_trimRight (s : string) :
  Js.hasNewline s = false -> Js.hasNewline (Js.trimRight s) = false.
Proof.
  induction s as [|c s IH]; [reflexivity|].
  intros H. cbn [Js.hasNewline] in H. apply orb_false_iff in H as [Hc Hs].
  cbn [Js.trimRight]. specialize (IH Hs).
  destruct (Js.trimRight s) as [|d t].
  - destruct (Js.is_ws c); [reflexivity|].
    cbn [Js.hasNewline]. now rewrite Hc.
  - cbn [Js.hasNewline] in IH |- *. now rewrite Hc, IH.
Qed.

Lemma hasNewline_trim (s : string) :
  Js.hasNewline s = false -> Js.hasNewline (Js.trim s) = false.
Proof. intros H. now apply hasNewline_trimRight, hasNewline_trimLeft. Qed.

Lemma split_nl_nonempty (s : string) : Js.split_nl s <> [].
Proof.
  destruct s as [|c s]; simpl; [discriminate|].
  destruct (Ascii.eqb c (ascii_of_nat 10)); [discriminate|].
  destruct (Js.split_nl s); discriminate.
Qed.

(** No line of [split('\n')] holds a line feed. *)
Lemma split_nl_no_newline (s : string) :
  Forall (fun line => Js.hasNewline line = false) (Js.split_nl s).
Proof.
  induction s as [|c s IH]; simpl.
  - now repeat constructor.
  - destruct (Ascii.eqb c (ascii_of_nat 10)) eqn:E.
    + now constructor.
    + destruct (Js.split_nl s) as [|h t].
      * constructor; [|constructor]. simpl. now rewrite E.
      * inversion IH as [|h' t' Hh Ht]; subst.
        constructor; [|exact Ht]. simpl. now rewrite E, Hh.
Qed.

Lemma split_nl_line (s rest : string) :
  Js.hasNewline s = false ->
  Js.split_nl (s ++ Js.nl ++ rest) = s :: Js.split_nl rest.
Proof.
  induction s as [|c s IH]; intros H.
  - reflexivity.
  - cbn [Js.hasNewline] in H. apply orb_false_iff in H as [Hc Hs].
    cbn [String.append Js.split_nl]. rewrite Hc, (IH Hs). reflexivity.
Qed.

(** Splitting the text of lines that hold no line feed gives the lines
    back, and one empty line after the last newline. *)
Lemma split_nl_unlines (l : list string) :
  Forall (fun line => Js.hasNewline line = false) l ->
  Js.split_nl (Spec.unlines l) = (l ++ [""])%list.
Proof.
  induction 1 as [|s l Hs Hl IH]; [reflexivity|].
  cbn [Spec.unlines]. rewrite (split_nl_line _ _ Hs), IH. reflexivity.
Qed.

(** ** Imports: reading a block *)

Lemma readImports_loop_projectName (lines rest : list string) :
  forall (i : nat) (imp : Imports.t),
    Imports.projectName (Imports.readImports_loop lines i rest imp)
    = Imports.projectName imp.
Proof.
  induction rest as [|raw rest IH]; intros i imp; [reflexivity|].
  cbn [Imports.readImports_loop].
  destruct (Imports.isDirective (Js.trim raw)).
  - destruct rest; [reflexivity|]. now rewrite IH.
  - match goal with |- context [if ?b then _ else _] => destruct b end.
    + destruct (Js.notNull (Imports.startAtLine imp)); [|reflexivity].
      match goal with |- context [if ?b then _ else _] => destruct b end;
        reflexivity.
    + apply IH.
Qed.

Lemma new_projectName (text : string) (projectName : option string) :
  Imports.projectName (Imports.new text projectName) = projectName.
Proof.
  unfold Imports.new, Imports.readImports.
  destruct (Nat.eqb (String.length text) 0); [reflexivity|].
  now rewrite readImports_loop_projectName.
Qed.

(** Every stored value is a trimmed directive line. *)
Lemma readImports_loop_stored (lines rest : list string) :
  Forall (fun line => Js.hasNewline line = false) rest ->
  forall (i : nat) (imp : Imports.t),
    Forall Spec.storedDirective (Imports.values imp) ->
    Forall Spec.storedDirective
      (Imports.values (Imports.readImports_loop lines i rest imp)).
Proof.
  induction 1 as [|raw rest Hraw Hrest IH]; intros i imp Himp; [exact Himp|].
  cbn [Imports.readImports_loop].
  destruct (Imports.isDirective (Js.trim raw)) eqn:Ed.
  - assert (Hpush : Forall Spec.storedDirective
                      (Imports.values (Imports.pushLine imp (Js.trim raw) i))).
    { cbn [Imports.pushLine Imports.values]. apply Forall_app. split; [exact Himp|].
      constructor; [|constructor].
      repeat split; [exact Ed | apply trim_idempotent | now apply hasNewline_trim]. }
    destruct rest; [exact Hpush|]. now apply IH.
  - match goal with |- context [if ?b then _ else _] => destruct b end.
    + destruct (Js.notNull (Imports.startAtLine imp)); [|exact Himp].
      match goal with |- context [if ?b then _ else _] => destruct b end;
        exact Himp.
    + now apply IH.
Qed.

Lemma new_stored (text : string) (projectName : option string) :
  Forall Spec.storedDirective (Imports.values (Imports.new text projectName)).
Proof.
  unfold Imports.new, Imports.readImports.
  destruct (Nat.eqb (String.length text) 0); [constructor|].
  apply readImports_loop_stored; [apply split_nl_no_newline | constructor].
Qed.

(** The raw text holds the stored values, one per line. *)
Lemma readImports_loop_rawStatements (lines rest : list string) :
  forall (i : nat) (imp : Imports.t),
    Imports.rawStatements imp = Spec.unlines (Imports.values imp) ->
    let imp' := Imports.readImports_loop lines i rest imp in
    Imports.rawStatements imp' = Spec.unlines (Imports.values imp').
Proof.
  induction rest as [|raw rest IH]; intros i imp Himp; [exact Himp|].
  cbn [Imports.readImports_loop].
  destruct (Imports.isDirective (Js.trim raw)).
  - assert (Hpush : Imports.rawStatements (Imports.pushLine imp (Js.trim raw) i)
                    = Spec.unlines (Imports.values (Imports.pushLine imp (Js.trim raw) i))).
    { cbn [Imports.pushLine Imports.values Imports.rawStatements].
      rewrite unlines_app, Himp. cbn [Spec.unlines].
      now rewrite append_nil_r. }
    destruct rest; [exact Hpush|]. now apply IH.
  - match goal with |- context [if ?b then _ else _] => destruct b end.
    + destruct (Js.notNull (Imports.startAtLine imp)); [|exact Himp].
      match goal with |- context [if ?b then _ else _] => destruct b end;
        exact Himp.
    + now apply IH.
Qed.

Lemma new_rawStatements (text : string) (projectName : option string) :
  Imports.rawStatements (Imports.new text projectName)
  = Spec.unlines (Imports.values (Imports.new text projectName)).
Proof.
  unfold Imports.new, Imports.readImports.
  destruct (Nat.eqb (String.length text) 0); [reflexivity|].
  now apply readImports_loop_rawStatements.
Qed.

(** Reading lines that are stored directives or empty, the last one being
    empty: every directive is stored, in order, and nothing else. *)
Lemma readImports_loop_block (lines body : list string) :
  Forall (fun s => s = "" \/ Spec.storedDirective s) body ->
  forall (i : nat) (imp : Imports.t),
    Imports.values (Imports.readImports_loop lines i (body ++ [""]) imp)
    = (Imports.values imp ++ filter Imports.isDirective body)%list.
Proof.
  induction 1 as [|s body Hs Hbody IH]; intros i imp.
  - cbn. destruct (Js.notNull (Imports.startAtLine imp)); cbn;
      [|now rewrite app_nil_r].
    match goal with |- context [if ?b then _ else _] => destruct b end;
      cbn; now rewrite app_nil_r.
  - change ((s :: body) ++ [""])%list with (s :: (body ++ [""]))%list.
    cbn [Imports.readImports_loop].
    assert (Hnext : match (body ++ [""])%list with [] => true | _ :: _ => false end
                    = false).
    { destruct body; reflexivity. }
    rewrite Hnext. destruct Hs as [->|(Hd & Ht & _)].
    + cbn. apply IH.
    + rewrite Ht, Hd. cbn [filter]. rewrite Hd, IH.
      cbn [Imports.pushLine Imports.values]. now rewrite <- app_assoc.
Qed.

(** ** Imports: formatting twice *)

Section Layout.

Variable workspace : option string.
Variable content : Spec.Bucket -> list string.

Hypothesis content_stored : forall b, Forall Spec.storedDirective (content b).
Hypothesis content_bucket :
  forall b, Forall (fun s => Spec.bucketOf workspace s = b) (content b).

Lemma layoutLines_end (ord : list Spec.Bucket) :
  Spec.layoutLines content ord = []
  \/ exists body, Spec.layoutLines content ord = (body ++ [""])%list.
Proof.
  induction ord as [|b ord IH]; [now left|].
  unfold Spec.layoutLines in *. cbn [flat_map].
  destruct IH as [->|[body ->]].
  - rewrite app_nil_r. destruct (content b) as [|s l]; [now left|].
    right. now exists (s :: l).
  - right. exists (Spec.bucketLines (content b) ++ body)%list.
    now rewrite app_assoc.
Qed.

Lemma filter_stored (l : list string) :
  Forall Spec.storedDirective l -> filter Imports.isDirective l = l.
Proof.
  induction 1 as [|s l (Hd & _) Hl IH]; [reflexivity|].
  cbn [filter]. now rewrite Hd, IH.
Qed.

Lemma layoutLines_directives (ord : list Spec.Bucket) :
  filter Imports.isDirective (Spec.layoutLines content ord) = flat_map content ord.
Proof.
  induction ord as [|b ord IH]; [reflexivity|].
  unfold Spec.layoutLines in *. cbn [flat_map]. rewrite filter_app, IH. f_equal.
  pose proof (filter_stored _ (content_stored b)) as Hf.
  destruct (content b) as [|s l] eqn:E; [reflexivity|].
  cbn [Spec.bucketLines]. rewrite filter_app, Hf. cbn. now rewrite app_nil_r.
Qed.

Lemma layoutLines_stored (ord : list Spec.Bucket) :
  Forall (fun s => s = "" \/ Spec.storedDirective s) (Spec.layoutLines content ord).
Proof.
  induction ord as [|b ord IH]; [constructor|].
  unfold Spec.layoutLines in *. cbn [flat_map]. apply Forall_app. split; [|exact IH].
  pose proof (content_stored b) as Hb.
  destruct (content b) as [|s l]; [constructor|].
  cbn [Spec.bucketLines]. apply Forall_app. split.
  - eapply Forall_impl; [|exact Hb]. intros a Ha. now right.
  - constructor; [now left | constructor].
Qed.

Lemma filter_other_bucket (b j : Spec.Bucket) :
  j <> b ->
  filter (fun s => Spec.bucket_eqb (Spec.bucketOf workspace s) b) (content j) = [].
Proof.
  intros Hjb. pose proof (content_bucket j) as Hj.
  induction Hj as [|s l Hs Hl IH]; [reflexivity|].
  cbn [filter]. rewrite Hs, IH.
  destruct (Spec.bucket_eqb j b) eqn:E; [|reflexivity].
  apply bucket_eqb_eq in E. contradiction.
Qed.

Lemma filter_same_bucket (b : Spec.Bucket) :
  filter (fun s => Spec.bucket_eqb (Spec.bucketOf workspace s) b) (content b)
  = content b.
Proof.
  pose proof (content_bucket b) as Hb.
  induction Hb as [|s l Hs Hl IH]; [reflexivity|].
  cbn [filter]. rewrite Hs, IH.
  now rewrite (proj2 (bucket_eqb_eq b b) eq_refl).
Qed.

(** The directives of bucket [b] among the lines of the layout are the
    content of that bucket. *)
Lemma directivesOf_layout (b : Spec.Bucket) :
  Spec.directivesOf workspace b (flat_map content Spec.order) = content b.
Proof.
  unfold Spec.directivesOf, Spec.order. cbn [flat_map].
  rewrite !filter_app. cbn [filter].
  destruct b;
    rewrite filter_same_bucket, !filter_other_bucket by discriminate;
    cbn [app]; now rewrite ?app_nil_r.
Qed.

End Layout.

Lemma layout_ext (f g : Spec.Bucket -> list string) :
  (forall b, f b = g b) -> Spec.layout f = Spec.layout g.
Proof.
  intros H. unfold Spec.layout, Spec.layoutLines, Spec.order. cbn [flat_map].
  now rewrite !H.
Qed.

Lemma sorted_bucket_stored (workspace : option string) (values : list string)
    (b : Spec.Bucket) :
  Forall Spec.storedDirective values ->
  Forall Spec.storedDirective (Js.sort (Spec.directivesOf workspace b values)).
Proof.
  intros H. apply Forall_forall. intros s Hs.
  apply sort_In, filter_In in Hs as [Hs _].
  revert s Hs. now apply Forall_forall.
Qed.

Lemma sorted_bucket_bucket (workspace : option string) (values : list string)
    (b : Spec.Bucket) :
  Forall (fun s => Spec.bucketOf workspace s = b)
         (Js.sort (Spec.directivesOf workspace b values)).
Proof.
  apply Forall_forall. intros s Hs.
  apply sort_In, filter_In in Hs as [_ Hs]. now apply bucket_eqb_eq.
Qed.

Lemma unlines_empty (l : list string) : Spec.unlines l = "" -> l = [].
Proof.
  destruct l as [|s l]; [reflexivity|]. cbn [Spec.unlines]. intros H.
  apply (f_equal String.length) in H. rewrite !length_append in H.
  simpl in H. lia.
Qed.

(** Reading a laid out block stores the content of its buckets, in the
    order of the buckets. *)
Lemma new_of_layout (projectName : option string)
    (content : Spec.Bucket -> list string) :
  (forall b, Forall Spec.storedDirective (content b)) ->
  Imports.values (Imports.new (Spec.layout content) projectName)
  = flat_map content Spec.order.
Proof.
  intros Hstored.
  rewrite <- (layoutLines_directives content Hstored Spec.order).
  pose proof (layoutLines_stored content Hstored Spec.order) as Hlines.
  unfold Spec.layout.
  destruct (layoutLines_end content Spec.order) as [E|[body E]];
    rewrite E in *; [reflexivity|].
  rewrite unlines_app. cbn [Spec.unlines].
  rewrite append_nil_r.
  change ("" ++ Js.nl) with Js.nl. rewrite removeEnd_append.
  apply Forall_app in Hlines as [Hbody _].
  rewrite filter_app. cbn [filter Imports.isDirective]. cbn. rewrite app_nil_r.
  unfold Imports.new, Imports.readImports.
  destruct (Nat.eqb (String.length (Spec.unlines body)) 0) eqn:El.
  - apply Nat.eqb_eq in El.
    assert (Hb : body = []).
    { apply unlines_empty. destruct (Spec.unlines body); [reflexivity | discriminate]. }
    subst body. reflexivity.
  - rewrite split_nl_unlines.
    + now rewrite readImports_loop_block.
    + eapply Forall_impl; [|exact Hbody].
      intros s [->|(_ & _ & Hs)]; [reflexivity | exact Hs].
Qed.

(** C2: formatting the formatted text of an import block gives that text
    again. *)
Theorem format_idempotent (folder projectName : option string) (text : string) :
  Imports.format folder projectName (Imports.format folder projectName text)
  = Imports.format folder projectName text.
Proof.
  unfold Imports.format.
  set (imp := Imports.new text projectName).
  set (workspace := Imports.workspaceOf projectName folder).
  set (content := fun b => Js.sort (Spec.directivesOf workspace b (Imports.values imp))).
  assert (HF : Imports.formatted folder imp = Spec.layout content).
  { rewrite formatted_layout. unfold imp at 1. now rewrite new_projectName. }
  assert (Hstored : forall b, Forall Spec.storedDirective (content b)).
  { intros b. apply sorted_bucket_stored, new_stored. }
  assert (Hbucket : forall b, Forall (fun s => Spec.bucketOf workspace s = b) (content b)).
  { intros b. apply sorted_bucket_bucket. }
  rewrite HF, formatted_layout, new_projectName, (new_of_layout _ _ Hstored).
  fold workspace. apply layout_ext. intros b.
  rewrite (directivesOf_layout workspace content Hbucket).
  apply sort_idempotent.
Qed.

(** ** DartClass: the replacement text *)

Lemma step_prepends (c : DartClass.t) (lines : list string) (i : nat)
    (acc : string) :
  exists p, DartClass.step c lines i acc = p ++ acc.
Proof.
  unfold DartClass.step.
  destruct (Nat.eqb i 0); [eauto|].
  match goal with |- context [if ?b then _ else _] => destruct b end.
  { eexists. rewrite <- !append_assoc. reflexivity. }
  match goal with |- context [if ?b then _ else _] => destruct b end.
  { eexists. rewrite <- !append_assoc. reflexivity. }
  destruct (DartClass.replacementAtLine c _) as [rp|]; [|eauto].
  destruct (negb (Js.includes acc rp)).
  - eexists. rewrite <- !append_assoc. reflexivity.
  - now exists "".
Qed.

(** The turns of the loop only add text in front of what is there. *)
Lemma loop_prepends (c : DartClass.t) (lines : list string) (k : nat) :
  forall acc : string, exists p, DartClass.loop c lines k acc = p ++ acc.
Proof.
  induction k as [|k IH]; intros acc; [now exists ""|].
  cbn [DartClass.loop].
  destruct (step_prepends c lines k acc) as [p Hp].
  destruct (IH (DartClass.step c lines k acc)) as [q Hq].
  exists (q ++ p). now rewrite Hq, Hp, append_assoc.
Qed.

Lemma loop_below (c : DartClass.t) (lines : list string) (d : nat) :
  forall k : nat,
    DartClass.loop c lines (k + d) ""
    = DartClass.loop c lines k (DartClass.below c lines k d).
Proof.
  induction d as [|d IH]; intros k.
  - now rewrite Nat.add_0_r.
  - rewrite Nat.add_succ_r, <- Nat.add_succ_l, IH. reflexivity.
Qed.

Lemma replacementAt_uncovered (parts : list ClassPart.t) (l : Z) :
  (forall part, In part parts -> DartClass.covers part l = false) ->
  DartClass.replacementAt parts l = None.
Proof.
  induction parts as [|part parts IH]; intros H; [reflexivity|].
  cbn [DartClass.replacementAt]. rewrite (H part) by now left.
  apply IH. intros q Hq. apply H. now right.
Qed.

Lemma startsWith_nl (s : string) : Js.startsWith (Js.nl ++ s) Js.nl = true.
Proof.
  unfold Js.startsWith, Js.nl. cbn [String.append prefix].
  destruct (ascii_dec (ascii_of_nat 10) (ascii_of_nat 10)) as [_|N];
    [now destruct s | now elim N].
Qed.

(** * Further properties *)

(** ** DartClass: the shape of the replacement text *)

Lemma addSuperTypes_loop_concat (list : list string) :
  forall d : string,
    list <> [] ->
    DartClass.addSuperTypes_loop list d = d ++ String.concat ", " list.
Proof.
  induction list as [|x list IH]; intros d Hne; [now elim Hne|].
  cbn [DartClass.addSuperTypes_loop]. destruct list as [|y list].
  - reflexivity.
  - cbn [negb]. rewrite IH by discriminate.
    cbn [String.concat]. now rewrite !append_assoc.
Qed.

Lemma addSuperTypes_superTypes (list : list string) (keyword d : string) :
  DartClass.addSuperTypes list keyword d = d ++ Spec.superTypes keyword list.
Proof.
  unfold DartClass.addSuperTypes, Spec.superTypes.
  destruct list as [|x list]; [now rewrite append_nil_r|].
  rewrite addSuperTypes_loop_concat by discriminate.
  now rewrite !append_assoc.
Qed.

(** The header line is built from the model: the kind of class, the name
    and its generic parameters, the superclass, the mixins and the
    interfaces, each list separated by commas with no separator after its
    last name. *)
Theorem classDeclaration_header (c : DartClass.t) :
  DartClass.classDeclaration c = Spec.header c ++ Js.nl.
Proof.
  unfold DartClass.classDeclaration, Spec.header.
  rewrite !addSuperTypes_superTypes.
  destruct (DartClass.superclass c); rewrite !append_assoc; try reflexivity.
Qed.

Lemma classDeclaration_eq (c : DartClass.t) :
  DartClass.classDeclaration c = Spec.header c ++ Js.nl.
Proof.
  unfold DartClass.classDeclaration, Spec.header.
  rewrite !addSuperTypes_superTypes.
  destruct (DartClass.superclass c); rewrite !append_assoc; try reflexivity.
Qed.

(** A class whose last line lies before its first line, as when the ending
    was never found behind a positive start, has an empty replacement. *)
Theorem replacement_empty_span (c : DartClass.t) :
  (DartClass.lastIndex c < 0)%Z -> DartClass.generateClassReplacement c = "".
Proof.
  intros H. unfold DartClass.generateClassReplacement.
  replace (Z.to_nat (DartClass.lastIndex c + 1)) with 0%nat by lia.
  reflexivity.
Qed.

Lemma replacement_empty_span_witness :
  DartClass.generateClassReplacement Sample.unterminated = "".
Proof.
  apply (replacement_empty_span Sample.unterminated). reflexivity.
Defined.

(** The replacement text starts with the header built from the model,
    whatever the first line of the source is. *)
Theorem replacement_starts_with_header (c : DartClass.t) :
  (0 <= DartClass.lastIndex c)%Z ->
  exists rest, DartClass.generateClassReplacement c = Spec.header c ++ rest.
Proof.
  intros H. unfold DartClass.generateClassReplacement.
  set (lines := Js.split_nl (DartClass.classContent c)).
  set (k := Z.to_nat (DartClass.lastIndex c + 1)).
  assert (Hk : k = (1 + (k - 1))%nat) by (unfold k; lia).
  rewrite Hk, loop_below. cbn [DartClass.loop].
  set (rest := DartClass.below c lines 1 (k - 1)).
  unfold DartClass.step. cbn [Nat.eqb].
  rewrite classDeclaration_eq, append_assoc.
  exists (removeEnd (Js.nl ++ rest) Js.nl).
  apply removeEnd_append_l. rewrite length_append. simpl. lia.
Qed.

Lemma replacement_starts_with_header_witness :
  exists rest,
    DartClass.generateClassReplacement Sample.counter
    = "class Counter extends Equatable implements Comparable<Counter>, Named {"
      ++ rest.
Proof.
  apply (replacement_starts_with_header Sample.counter). vm_compute. discriminate.
Defined.

(** The turn at the closing line of a valid class of more than one line,
    and what the text ends with: the members to insert stand right in
    front of the closing line, which ends the replacement text. *)
Theorem toInsert_before_closing_line (c : DartClass.t) (e : Z) (line : string) :
  DartClass.isValid c = true ->
  DartClass.endsAtLine c = Some e ->
  (0 < DartClass.lastIndex c)%Z ->
  nth_error (Js.split_nl (DartClass.classContent c))
            (Z.to_nat (DartClass.lastIndex c)) = Some line ->
  Z.eqb e (DartClass.propsEndAtLine c) && Js.notNull (DartClass.constr c)
    && negb (DartClass.hasConstructor c) = false ->
  exists pre,
    DartClass.generateClassReplacement c = pre ++ DartClass.toInsert c ++ line.
Proof.
  intros Hvalid Hend Hpos Hline Hconstr.
  unfold DartClass.generateClassReplacement.
  set (lines := Js.split_nl (DartClass.classContent c)) in *.
  set (n := Z.to_nat (DartClass.lastIndex c)) in *.
  replace (Z.to_nat (DartClass.lastIndex c + 1)) with (S n) by (unfold n; lia).
  cbn [DartClass.loop].
  assert (Hl : (Js.num (DartClass.startsAtLine c) + Z.of_nat n)%Z = e).
  { unfold n. unfold DartClass.lastIndex in *. rewrite Hend in *. simpl in *. lia. }
  assert (Hn : (0 < n)%nat) by (unfold n; lia).
  clearbody n.
  assert (Hstep : DartClass.step c lines n ""
                  = (DartClass.toInsert c ++ line) ++ Js.nl).
  { unfold DartClass.step. rewrite Hl.
    destruct n as [|n']; [lia|]. cbn [Nat.eqb].
    rewrite Hconstr, Hend, Hvalid. cbn [DartClass.lineIs].
    rewrite Z.eqb_refl, Hline. cbn [andb Js.str_undef].
    now rewrite append_nil_r, !append_assoc. }
  rewrite Hstep.
  destruct (loop_prepends c lines n ((DartClass.toInsert c ++ line) ++ Js.nl))
    as [pre ->].
  exists pre.
  rewrite <- (append_assoc pre (DartClass.toInsert c ++ line) Js.nl).
  apply removeEnd_append.
Qed.

Lemma toInsert_before_closing_line_witness :
  exists pre,
    DartClass.generateClassReplacement Sample.counter
    = pre ++ DartClass.toInsert Sample.counter ++ "}".
Proof.
  apply (toInsert_before_closing_line Sample.counter 3 "}"); reflexivity.
Defined.

(** At the line of the last property of a class that has a constructor
    text but no constructor in the source, when that line is not the first
    line of the class, the line is kept and the constructor text is
    written right after it. *)
Theorem constructor_after_last_property (c : DartClass.t) (i : nat)
    (line text : string) :
  (0 < i)%nat ->
  (Z.of_nat i <= DartClass.lastIndex c)%Z ->
  (Js.num (DartClass.startsAtLine c) + Z.of_nat i)%Z = DartClass.propsEndAtLine c ->
  DartClass.constr c = Some text ->
  DartClass.hasConstructor c = false ->
  nth_error (Js.split_nl (DartClass.classContent c)) i = Some line ->
  exists pre rest,
    DartClass.generateClassReplacement c
    = pre ++ line ++ removeEnd (Js.nl ++ text ++ rest) Js.nl.
Proof.
  intros Hfirst Hin Hl Hconstr Hhas Hline.
  unfold DartClass.generateClassReplacement.
  set (lines := Js.split_nl (DartClass.classContent c)) in *.
  set (k := Z.to_nat (DartClass.lastIndex c + 1)).
  assert (Hk : k = (S i + (k - S i))%nat) by (unfold k; lia).
  set (rest := DartClass.below c lines (S i) (k - S i)).
  rewrite Hk, loop_below. fold rest. cbn [DartClass.loop].
  assert (Hstep : DartClass.step c lines i rest
                  = (line ++ Js.nl) ++ (text ++ rest)).
  { unfold DartClass.step. rewrite Hl, Z.eqb_refl, Hconstr, Hhas, Hline.
    destruct i as [|i']; [lia|]. reflexivity. }
  rewrite Hstep.
  destruct (loop_prepends c lines i ((line ++ Js.nl) ++ (text ++ rest)))
    as [pre ->].
  exists pre, rest. rewrite removeEnd_append_l.
  - rewrite append_assoc, removeEnd_append_l; [reflexivity|].
    rewrite length_append. simpl. lia.
  - rewrite !length_append. simpl. lia.
Qed.

Lemma constructor_after_last_property_witness :
  exists pre rest,
    DartClass.generateClassReplacement Sample.counter
    = pre ++ "  final int n;"
      ++ removeEnd (Js.nl ++ ("  Counter(this.n);" ++ Js.nl) ++ rest) Js.nl.
Proof.
  apply (constructor_after_last_property Sample.counter 1); try reflexivity.
  - lia.
  - vm_compute. discriminate.
Defined.

(** ** DartClass: the parts to replace *)

Lemma covers_spec (part : ClassPart.t) (l : Z) :
  DartClass.covers part l = true <->
  (Js.num (ClassPart.startsAt part) <= l <= Js.num (ClassPart.endsAt part))%Z.
Proof.
  unfold DartClass.covers. rewrite andb_true_iff, Z.leb_le, Z.geb_le. tauto.
Qed.

(** [replacementAtLine] answers with the first part whose span holds the
    line, also when a later part holds it too, and with [null] when no
    span holds it. *)
Theorem replacementAtLine_first (c : DartClass.t) (l : Z) :
  (forall front part back,
      DartClass.toReplace c = (front ++ part :: back)%list ->
      (forall q, In q front ->
         ~ (Js.num (ClassPart.startsAt q) <= l <= Js.num (ClassPart.endsAt q))%Z) ->
      (Js.num (ClassPart.startsAt part) <= l <= Js.num (ClassPart.endsAt part))%Z ->
      DartClass.replacementAtLine c l = ClassPart.replacement part)
  /\ ((forall q, In q (DartClass.toReplace c) ->
         ~ (Js.num (ClassPart.startsAt q) <= l <= Js.num (ClassPart.endsAt q))%Z) ->
      DartClass.replacementAtLine c l = None).
Proof.
  unfold DartClass.replacementAtLine. split.
  - intros front part back -> Hfront Hpart.
    induction front as [|q front IH]; cbn [app DartClass.replacementAt].
    + now rewrite (proj2 (covers_spec part l) Hpart).
    + destruct (DartClass.covers q l) eqn:E.
      * apply covers_spec in E. elim (Hfront q); [now left | exact E].
      * apply IH. intros q' Hq'. apply Hfront. now right.
  - intros Hnone. apply replacementAt_uncovered. intros q Hq.
    destruct (DartClass.covers q l) eqn:E; [|reflexivity].
    apply covers_spec in E. now elim (Hnone q Hq).
Qed.

Lemma replacementAtLine_first_witness :
  DartClass.replacementAtLine Sample.point 14
  = Some "  String toString() => 'Point(x: $x)';".
Proof.
  apply (proj1 (replacementAtLine_first Sample.point 14) []
           (ClassPart.mk "toString()" (Some 14%Z) (Some 14%Z)
              (Some "  String toString() => 'Point';")
              (Some "  String toString() => 'Point(x: $x)';")) []).
  - reflexivity.
  - intros q [].
  - simpl. lia.
Defined.

Lemma prefix_split (p s : string) :
  prefix p s = true -> exists rest, s = p ++ rest.
Proof.
  revert s. induction p as [|a p IH]; intros s H; [now exists s|].
  destruct s as [|b s]; [discriminate|].
  cbn [prefix] in H. destruct (ascii_dec a b) as [->|]; [|discriminate].
  destruct (IH s H) as [rest ->]. now exists rest.
Qed.

Lemma includes_split (s sub : string) :
  Js.includes s sub = true -> exists a b, s = a ++ sub ++ b.
Proof.
  induction s as [|c s IH]; cbn [Js.includes].
  - destruct (prefix sub "") eqn:E; [|discriminate]. intros _.
    apply prefix_split in E as [rest E]. now exists "", rest.
  - destruct (prefix sub (String c s)) eqn:E.
    + intros _. apply prefix_split in E as [rest E]. now exists "", rest.
    + intros H. destruct (IH H) as (a & b & ->). now exists (String c a), b.
Qed.

(** The text of a part to replace stands in the text that the loop builds:
    at a line inside the span of the part, the replacement is written
    unless the text built so far already holds it. *)
Theorem replacement_written (c : DartClass.t) (i : nat) (rp : string) :
  let l := (Js.num (DartClass.startsAtLine c) + Z.of_nat i)%Z in
  (0 < i)%nat ->
  (Z.of_nat i <= DartClass.lastIndex c)%Z ->
  Z.eqb l (DartClass.propsEndAtLine c) && Js.notNull (DartClass.constr c)
    && negb (DartClass.hasConstructor c) = false ->
  DartClass.lineIs l (DartClass.endsAtLine c) && DartClass.isValid c = false ->
  DartClass.replacementAtLine c l = Some rp ->
  exists pre post,
    DartClass.generateClassReplacement c = removeEnd (pre ++ rp ++ post) Js.nl.
Proof.
  intros l Hfirst Hin Hconstr Hclosing Hrp.
  unfold DartClass.generateClassReplacement.
  set (lines := Js.split_nl (DartClass.classContent c)) in *.
  set (k := Z.to_nat (DartClass.lastIndex c + 1)).
  assert (Hk : k = (S i + (k - S i))%nat) by (unfold k; lia).
  set (rest := DartClass.below c lines (S i) (k - S i)).
  rewrite Hk, loop_below. fold rest. cbn [DartClass.loop].
  assert (Hstep : exists a b, DartClass.step c lines i rest = a ++ rp ++ b).
  { unfold DartClass.step. fold l.
    destruct i as [|i']; [lia|]. cbn [Nat.eqb].
    rewrite Hconstr, Hclosing, Hrp.
    destruct (Js.includes rest rp) eqn:E; cbn [negb].
    - now apply includes_split.
    - now exists "", (Js.nl ++ rest). }
  destruct Hstep as (a & b & ->).
  destruct (loop_prepends c lines i (a ++ rp ++ b)) as [pre ->].
  exists (pre ++ a), b. now rewrite !append_assoc.
Qed.

Lemma replacement_written_witness :
  exists pre post,
    DartClass.generateClassReplacement Sample.point
    = removeEnd (pre ++ "  String toString() => 'Point(x: $x)';" ++ post) Js.nl.
Proof.
  apply (replacement_written Sample.point 4); try reflexivity.
  - lia.
  - vm_compute. discriminate.
Defined.

(** ** DartClass: a class with nothing to change *)

(** Joining the lines of a text with newlines gives the text back. *)
Lemma unlines_split_nl (s : string) : Spec.unlines (Js.split_nl s) = s ++ Js.nl.
Proof.
  induction s as [|c s IH]; [reflexivity|].
  cbn [Js.split_nl]. destruct (Ascii.eqb_spec c (ascii_of_nat 10)) as [->|N].
  - cbn [Spec.unlines]. rewrite IH. reflexivity.
  - pose proof (split_nl_nonempty s) as Hne.
    destruct (Js.split_nl s) as [|h t]; [now elim Hne|].
    cbn [Spec.unlines] in *. cbn [String.append]. now rewrite IH.
Qed.

Lemma skipn_nth_error {A : Type} (l : list A) :
  forall (k : nat) (x : A),
    nth_error l k = Some x -> skipn k l = x :: skipn (S k) l.
Proof.
  induction l as [|y l IH]; intros [|k] x H; try discriminate.
  - now inversion H.
  - cbn [skipn]. now apply IH.
Qed.

Section NothingToChange.

Variable c : DartClass.t.
Variable lines : list string.

Hypothesis no_parts : DartClass.toReplace c = [].
Hypothesis no_insert : DartClass.toInsert c = "".
Hypothesis no_new_constructor :
  DartClass.constr c = None \/ DartClass.hasConstructor c = true.

Lemma step_keeps_line (i : nat) (line acc : string) :
  (0 < i)%nat -> nth_error lines i = Some line ->
  DartClass.step c lines i acc = line ++ Js.nl ++ acc.
Proof.
  intros Hi Hline. unfold DartClass.step.
  destruct i as [|i']; [lia|]. cbn [Nat.eqb].
  assert (Hc : forall b, b && Js.notNull (DartClass.constr c)
                         && negb (DartClass.hasConstructor c) = false).
  { intros b. destruct no_new_constructor as [->| ->]; cbn;
      [now rewrite andb_false_r | now rewrite andb_false_r]. }
  rewrite Hc, Hline, no_insert. unfold DartClass.replacementAtLine.
  rewrite no_parts. cbn [DartClass.replacementAt Js.str_undef].
  destruct (_ && _); cbn; now rewrite ?append_assoc.
Qed.

Lemma below_keeps_lines (d : nat) :
  forall k : nat,
    (0 < k)%nat -> (k + d <= List.length lines)%nat ->
    DartClass.below c lines k d = Spec.unlines (firstn d (skipn k lines)).
Proof.
  induction d as [|d IH]; intros k Hk Hlen; [reflexivity|].
  cbn [DartClass.below].
  destruct (nth_error lines k) as [line|] eqn:E.
  - rewrite (step_keeps_line k line _ Hk E), IH by lia.
    rewrite (skipn_nth_error lines k line E). reflexivity.
  - apply nth_error_None in E. lia.
Qed.

End NothingToChange.

(** A class with nothing to replace, nothing to insert and no constructor
    to add, whose text has one line per line of its span and starts with
    the header that the model gives, is its own replacement text. *)
Theorem replacement_identity (c : DartClass.t) :
  let lines := Js.split_nl (DartClass.classContent c) in
  Z.of_nat (List.length lines) = (DartClass.lastIndex c + 1)%Z ->
  hd "" lines = Spec.header c ->
  DartClass.toReplace c = [] ->
  DartClass.toInsert c = "" ->
  DartClass.constr c = None \/ DartClass.hasConstructor c = true ->
  DartClass.generateClassReplacement c = DartClass.classContent c.
Proof.
  intros lines Hlen Hhead Hparts Hinsert Hconstr.
  unfold DartClass.generateClassReplacement. fold lines.
  replace (Z.to_nat (DartClass.lastIndex c + 1)) with (List.length lines) by lia.
  pose proof (unlines_split_nl (DartClass.classContent c)) as Hjoin.
  fold lines in Hjoin.
  destruct lines as [|h tl] eqn:El; [now elim (split_nl_nonempty _ El)|].
  cbn [hd] in Hhead.
  change (List.length (h :: tl)) with (1 + List.length tl)%nat.
  rewrite loop_below. cbn [DartClass.loop].
  rewrite (below_keeps_lines c (h :: tl) Hparts Hinsert Hconstr)
    by (cbn [List.length]; lia).
  cbn [skipn]. rewrite firstn_all.
  unfold DartClass.step. cbn [Nat.eqb].
  rewrite classDeclaration_eq, <- Hhead, append_assoc.
  cbn [Spec.unlines] in Hjoin. rewrite Hjoin.
  apply removeEnd_append.
Qed.

Lemma replacement_identity_witness :
  DartClass.generateClassReplacement Sample.reconstructor
  = DartClass.classContent Sample.reconstructor.
Proof.
  apply (replacement_identity Sample.reconstructor); try reflexivity.
  right. reflexivity.
Defined.

(** ** Imports: the lines of the block *)

Lemma isDirective_not_blank (raw : string) :
  Imports.isDirective (Js.trim raw) = true -> isBlank raw = false.
Proof.
  unfold isBlank. destruct (Js.trim raw); [discriminate | reflexivity].
Qed.

Lemma readImports_loop_range (lines rest : list string) :
  forall (front : list string) (i : nat) (imp : Imports.t),
    lines = (front ++ rest)%list ->
    List.length front = i ->
    rest <> [] ->
    Imports.endAtLine imp = None ->
    match Imports.startAtLine imp with
    | None => Imports.values imp = []
    | Some s =>
        Imports.values imp <> []
        /\ exists j : nat,
             (1 <= s <= Z.of_nat j)%Z /\ (0 < j <= i)%nat
             /\ isBlank (nth (j - 1) lines "") = false
    end ->
    let imp' := Imports.readImports_loop lines i rest imp in
    match Imports.startAtLine imp', Imports.endAtLine imp' with
    | None, None => Imports.values imp' = []
    | Some s, Some e =>
        (1 <= s <= e)%Z /\ (e <= Z.of_nat (List.length lines))%Z
        /\ Imports.values imp' <> []
    | _, _ => False
    end.
Proof.
  induction rest as [|raw rest IH]; intros front i imp Hlines Hfront Hne Hend Hinv;
    [now elim Hne|].
  assert (Hraw : nth i lines "" = raw).
  { rewrite Hlines, <- Hfront. apply nth_middle. }
  assert (Hlen : (i < List.length lines)%nat).
  { rewrite Hlines, length_app, Hfront. simpl. lia. }
  cbn [Imports.readImports_loop].
  destruct (Imports.isDirective (Js.trim raw)) eqn:Ed.
  - assert (Hpush : match Imports.startAtLine (Imports.pushLine imp (Js.trim raw) i) with
                    | None => False
                    | Some s =>
                        Imports.values (Imports.pushLine imp (Js.trim raw) i) <> []
                        /\ exists j : nat,
                             (1 <= s <= Z.of_nat j)%Z /\ (0 < j <= S i)%nat
                             /\ isBlank (nth (j - 1) lines "") = false
                    end).
    { cbn [Imports.pushLine Imports.startAtLine Imports.values].
      assert (Hb : isBlank (nth (S i - 1) lines "") = false).
      { replace (S i - 1)%nat with i by lia. rewrite Hraw.
        now apply isDirective_not_blank. }
      destruct (Imports.startAtLine imp) as [s|].
      - destruct Hinv as (_ & j & Hs & Hj & _).
        split; [now destruct (Imports.values imp)|].
        exists (S i). repeat split; try lia. exact Hb.
      - split; [now destruct (Imports.values imp)|].
        exists (S i). repeat split; try lia. exact Hb. }
    destruct rest as [|next rest'].
    + cbn [Imports.set_endAtLine Imports.startAtLine Imports.endAtLine
           Imports.values Imports.pushLine] in Hpush |- *.
      destruct (Imports.startAtLine imp) as [s|];
        destruct Hpush as (Hv & j & Hs & Hj & _);
        repeat split; try lia; exact Hv.
    + apply (IH (front ++ [raw])%list).
      * now rewrite <- app_assoc.
      * rewrite length_app, Hfront. simpl. lia.
      * discriminate.
      * exact Hend.
      * destruct (Imports.startAtLine (Imports.pushLine imp (Js.trim raw) i));
          [exact Hpush | contradiction].
  - match goal with |- context [if ?b || ?b' then _ else _] =>
      destruct (b || b') eqn:Estop end.
    + destruct (Imports.startAtLine imp) as [s|] eqn:Es; cbn [Js.notNull].
      * destruct Hinv as (Hv & j & Hs & Hj & Hb).
        destruct (Nat.ltb 0 i && isBlank (nth (i - 1) lines "")) eqn:Eb;
          cbn [Imports.set_endAtLine Imports.startAtLine Imports.endAtLine
               Imports.values]; rewrite Es.
        -- apply andb_true_iff in Eb as [Hi Hbi]. apply Nat.ltb_lt in Hi.
           assert (j <> i) by (intros ->; congruence).
           repeat split; try lia. exact Hv.
        -- repeat split; try lia. exact Hv.
      * rewrite Es, Hend. exact Hinv.
    + apply orb_false_iff in Estop as [Hlast _].
      destruct rest as [|next rest']; [discriminate|].
      apply (IH (front ++ [raw])%list).
      * now rewrite <- app_assoc.
      * rewrite length_app, Hfront. simpl. lia.
      * discriminate.
      * exact Hend.
      * destruct (Imports.startAtLine imp) as [s|]; [|exact Hinv].
        destruct Hinv as (Hv & j & Hs & Hj & Hb).
        split; [exact Hv|]. exists j. repeat split; try lia. exact Hb.
Qed.

(** After reading a text, either nothing was stored and the block has no
    first and no last line, or the block has both, with the first line at
    or before the last one and both inside the text; so a block that was
    read has previous imports exactly when it has imports. *)
Theorem readImports_range (text : string) (projectName : option string) :
  let imp := Imports.new text projectName in
  match Imports.startAtLine imp, Imports.endAtLine imp with
  | None, None => Imports.values imp = []
  | Some s, Some e =>
      (1 <= s <= e)%Z
      /\ (e <= Z.of_nat (List.length (Js.split_nl text)))%Z
      /\ Imports.values imp <> []
  | _, _ => False
  end.
Proof.
  unfold Imports.new, Imports.readImports.
  destruct (Nat.eqb (String.length text) 0); [reflexivity|].
  apply (readImports_loop_range _ _ []); try reflexivity.
  apply split_nl_nonempty.
Qed.

(** What a block that was read holds: every stored value is a trimmed line
    that starts with [import], [export] or [part] and holds no line feed,
    and the raw text is the stored values, each followed by a newline. *)
Theorem readImports_stored (text : string) (projectName : option string) :
  let imp := Imports.new text projectName in
  Forall Spec.storedDirective (Imports.values imp)
  /\ Imports.rawStatements imp = Spec.unlines (Imports.values imp).
Proof.
  split; [apply new_stored | apply new_rawStatements].
Qed.

(** ** Imports: formatting keeps the directives *)

Lemma order_complete (b : Spec.Bucket) : In b Spec.order.
Proof. destruct b; simpl; tauto. Qed.

Lemma order_NoDup : NoDup Spec.order.
Proof.
  unfold Spec.order.
  repeat (constructor; [simpl; intuition discriminate|]). constructor.
Qed.

Lemma directivesOf_cons_other (workspace : option string) (x : string)
    (l : list string) (ord : list Spec.Bucket) :
  ~ In (Spec.bucketOf workspace x) ord ->
  flat_map (fun b => Spec.directivesOf workspace b (x :: l)) ord
  = flat_map (fun b => Spec.directivesOf workspace b l) ord.
Proof.
  induction ord as [|b ord IH]; intros Hnot; [reflexivity|].
  cbn [flat_map]. rewrite IH by (intros H; apply Hnot; now right).
  unfold Spec.directivesOf at 1. cbn [filter].
  destruct (Spec.bucket_eqb (Spec.bucketOf workspace x) b) eqn:E; [|reflexivity].
  apply bucket_eqb_eq in E. elim Hnot. now left.
Qed.

Lemma directivesOf_cons_perm (workspace : option string) (x : string)
    (l : list string) (ord : list Spec.Bucket) :
  NoDup ord -> In (Spec.bucketOf workspace x) ord ->
  Permutation (flat_map (fun b => Spec.directivesOf workspace b (x :: l)) ord)
              (x :: flat_map (fun b => Spec.directivesOf workspace b l) ord).
Proof.
  induction ord as [|b ord IH]; intros Hnd Hin; [now elim Hin|].
  inversion Hnd as [|b' ord' Hb Hnd']; subst.
  cbn [flat_map]. unfold Spec.directivesOf at 1. cbn [filter].
  destruct (Spec.bucket_eqb (Spec.bucketOf workspace x) b) eqn:E.
  - apply bucket_eqb_eq in E. subst b.
    rewrite directivesOf_cons_other by exact Hb. reflexivity.
  - destruct Hin as [Hin|Hin].
    + subst b. now rewrite (proj2 (bucket_eqb_eq _ _) eq_refl) in E.
    + rewrite (IH Hnd' Hin). symmetry. apply Permutation_middle.
Qed.

(** The buckets share out the directives: every directive falls into one
    bucket and into one only. *)
Lemma directivesOf_partition (workspace : option string) (values : list string) :
  Permutation (flat_map (fun b => Spec.directivesOf workspace b values) Spec.order)
              values.
Proof.
  induction values as [|x l IH].
  - reflexivity.
  - rewrite directivesOf_cons_perm;
      [now constructor | apply order_NoDup | apply order_complete].
Qed.

Lemma flat_map_perm {A B : Type} (f g : A -> list B) (l : list A) :
  (forall a, Permutation (f a) (g a)) ->
  Permutation (flat_map f l) (flat_map g l).
Proof.
  intros H. induction l as [|a l IH]; [reflexivity|].
  cbn [flat_map]. now apply Permutation_app.
Qed.

(** Formatting loses no directive and adds none: the directives read from
    the formatted text are those read from the source text, in another
    order. *)
Theorem format_keeps_directives (folder projectName : option string)
    (text : string) :
  Permutation
    (Imports.values
       (Imports.new (Imports.format folder projectName text) projectName))
    (Imports.values (Imports.new text projectName)).
Proof.
  unfold Imports.format.
  set (imp := Imports.new text projectName).
  set (workspace := Imports.workspaceOf projectName folder).
  assert (HF : Imports.formatted folder imp
               = Spec.layout (fun b => Js.sort
                   (Spec.directivesOf workspace b (Imports.values imp)))).
  { rewrite formatted_layout. unfold imp at 1. now rewrite new_projectName. }
  rewrite HF, new_of_layout
    by (intros b; apply sorted_bucket_stored, new_stored).
  transitivity
    (flat_map (fun b => Spec.directivesOf workspace b (Imports.values imp))
       Spec.order).
  - apply flat_map_perm. intros b. apply sort_perm.
  - apply directivesOf_partition.
Qed.

(** ** Imports: the order of the source does not matter *)

Lemma ascii_compare_refl (a : ascii) : Ascii.compare a a = Eq.
Proof. unfold Ascii.compare. apply N.compare_refl. Qed.

Lemma ascii_compare_lt_trans (a b c : ascii) :
  Ascii.compare a b = Lt -> Ascii.compare b c = Lt -> Ascii.compare a c = Lt.
Proof.
  unfold Ascii.compare. rewrite !N.compare_lt_iff. lia.
Qed.

Lemma string_leb_trans (a : string) :
  forall b c : string,
    String.leb a b = true -> String.leb b c = true -> String.leb a c = true.
Proof.
  unfold String.leb.
  induction a as [|x a IH]; intros [|y b] [|z c]; cbn [String.compare];
    try reflexivity; try discriminate.
  destruct (Ascii.compare x y) eqn:Exy; try discriminate;
    destruct (Ascii.compare y z) eqn:Eyz; try discriminate.
  - apply Ascii.compare_eq_iff in Exy, Eyz. subst.
    rewrite ascii_compare_refl. apply IH.
  - apply Ascii.compare_eq_iff in Exy. subst. now rewrite Eyz.
  - apply Ascii.compare_eq_iff in Eyz. subst. now rewrite Exy.
  - now rewrite (ascii_compare_lt_trans x y z Exy Eyz).
Qed.

Lemma alphabetical_head (x : string) (l : list string) :
  Spec.alphabetical (x :: l) -> forall y, In y l -> String.leb x y = true.
Proof.
  intros Hs. apply Sorted_StronglySorted in Hs.
  - inversion Hs as [|x' l' _ Hall]; subst. now apply Forall_forall.
  - intros a b c. apply string_leb_trans.
Qed.

Lemma string_leb_refl (x : string) : String.leb x x = true.
Proof. destruct (String.leb_total x x); assumption. Qed.

(** Two sorted arrays with the same elements are the same array. *)
Lemma alphabetical_unique (l1 : list string) :
  forall l2 : list string,
    Spec.alphabetical l1 -> Spec.alphabetical l2 -> Permutation l1 l2 -> l1 = l2.
Proof.
  induction l1 as [|x l1 IH]; intros l2 H1 H2 Hp.
  - now apply Permutation_nil in Hp.
  - destruct l2 as [|y l2].
    + symmetry in Hp. now apply Permutation_nil in Hp.
    + assert (Hxy : String.leb x y = true).
      { assert (Hin : In y (x :: l1)).
        { apply (Permutation_in _ (Permutation_sym Hp)). now left. }
        destruct Hin as [->|Hin]; [apply string_leb_refl|].
        now apply (alphabetical_head x l1). }
      assert (Hyx : String.leb y x = true).
      { assert (Hin : In x (y :: l2)).
        { apply (Permutation_in _ Hp). now left. }
        destruct Hin as [->|Hin]; [apply string_leb_refl|].
        now apply (alphabetical_head y l2). }
      assert (x = y) by now apply String.leb_antisym. subst y.
      f_equal. apply IH.
      * now inversion H1.
      * now inversion H2.
      * now apply Permutation_cons_inv in Hp.
Qed.

Lemma sort_permutation_eq (l1 l2 : list string) :
  Permutation l1 l2 -> Js.sort l1 = Js.sort l2.
Proof.
  intros Hp. apply alphabetical_unique; try apply sort_sorted.
  rewrite !sort_perm. exact Hp.
Qed.

Lemma filter_perm {A : Type} (f : A -> bool) (l1 l2 : list A) :
  Permutation l1 l2 -> Permutation (filter f l1) (filter f l2).
Proof.
  induction 1 as [|x l1 l2 Hp IH|x y l|l1 l2 l3 Hp1 IH1 Hp2 IH2]; cbn [filter].
  - reflexivity.
  - destruct (f x); [now constructor | exact IH].
  - destruct (f x), (f y); try reflexivity. apply perm_swap.
  - now transitivity (filter f l2).
Qed.

(** Two blocks of one project that hold the same directives, in whatever
    order, have the same formatted text. *)
Theorem formatted_order_independent (folder : option string)
    (imp1 imp2 : Imports.t) :
  Imports.projectName imp1 = Imports.projectName imp2 ->
  Permutation (Imports.values imp1) (Imports.values imp2) ->
  Imports.formatted folder imp1 = Imports.formatted folder imp2.
Proof.
  intros Hname Hperm. rewrite !formatted_layout, Hname.
  apply layout_ext. intros b. apply sort_permutation_eq.
  unfold Spec.directivesOf. now apply filter_perm.
Qed.

Lemma formatted_order_independent_witness :
  Imports.formatted None (Imports.new Sample.sourceAB None)
  = Imports.formatted None (Imports.new Sample.sourceBA None).
Proof.
  apply (formatted_order_independent None
           (Imports.new Sample.sourceAB None) (Imports.new Sample.sourceBA None)).
  - reflexivity.
  - vm_compute. apply perm_swap.
Defined.

(** ** Imports: requiring an import *)

Lemma arr_includes_app (l : list string) (x y : string) :
  Js.arr_includes (l ++ [x]) y = Js.arr_includes l y || String.eqb x y.
Proof.
  induction l as [|z l IH]; simpl.
  - now rewrite orb_false_r.
  - now rewrite IH, orb_assoc.
Qed.

Lemma hasAtLeastOneImport_In (imp : Imports.t) (names : list string) :
  Imports.hasAtLeastOneImport imp names = true <->
  exists n, In n names /\ In ("import '" ++ n ++ "';") (Imports.values imp).
Proof.
  induction names as [|n names IH]; cbn [Imports.hasAtLeastOneImport].
  - split; [discriminate | intros (n & [] & _)].
  - unfold Imports.includes at 1.
    destruct (Js.arr_includes (Imports.values imp) ("import '" ++ n ++ "';")) eqn:E.
    + split; [|reflexivity]. intros _. exists n.
      split; [now left | now apply arr_includes_In].
    + rewrite IH. split.
      * intros (m & Hm & Hin). exists m. split; [now right | exact Hin].
      * intros (m & [->|Hm] & Hin).
        -- apply arr_includes_In in Hin. congruence.
        -- now exists m.
Qed.

Lemma formattedImport_import (x : string) :
  Js.startsWith (Imports.formattedImport x) "import" = true.
Proof.
  unfold Imports.formattedImport.
  destruct (Js.startsWith x "import") eqn:E; [exact E | reflexivity].
Qed.

(** After [requiresImport] the import is there, or one of the overrides
    is; the statement that was looked for starts with [import]; the values
    that were there stay in place, in front of the one that may have been
    added; the raw text and the line numbers are left as they were. *)
Theorem requiresImport_ensures (imp : Imports.t) (x : string)
    (validOverrides : list string) :
  let imp' := Imports.requiresImport imp x validOverrides in
  (In (Imports.formattedImport x) (Imports.values imp')
   \/ exists n, In n validOverrides
                /\ In ("import '" ++ n ++ "';") (Imports.values imp'))
  /\ Js.startsWith (Imports.formattedImport x) "import" = true
  /\ (Imports.values imp' = Imports.values imp
      \/ Imports.values imp'
         = (Imports.values imp ++ [Imports.formattedImport x])%list)
  /\ Imports.rawStatements imp' = Imports.rawStatements imp
  /\ Imports.startAtLine imp' = Imports.startAtLine imp
  /\ Imports.endAtLine imp' = Imports.endAtLine imp.
Proof.
  unfold Imports.requiresImport. split; [|split; [apply formattedImport_import|]].
  - destruct (Imports.includes imp (Imports.formattedImport x)) eqn:Ei; cbn [negb andb].
    + left. now apply arr_includes_In.
    + destruct (Imports.hasAtLeastOneImport imp validOverrides) eqn:Eo; cbn [negb].
      * right. now apply hasAtLeastOneImport_In.
      * left. cbn [Imports.push Imports.values]. apply in_or_app. right. now left.
  - destruct (negb _ && negb _); cbn [Imports.push Imports.values
      Imports.rawStatements Imports.startAtLine Imports.endAtLine]; tauto.
Qed.

(** Requiring the same import a second time changes nothing. *)
Theorem requiresImport_idempotent (imp : Imports.t) (x : string)
    (validOverrides : list string) :
  Imports.requiresImport (Imports.requiresImport imp x validOverrides)
                         x validOverrides
  = Imports.requiresImport imp x validOverrides.
Proof.
  destruct (negb (Imports.includes imp (Imports.formattedImport x))
            && negb (Imports.hasAtLeastOneImport imp validOverrides)) eqn:E.
  - assert (Hin : Imports.requiresImport imp x validOverrides
                  = Imports.push imp (Imports.formattedImport x)).
    { unfold Imports.requiresImport. now rewrite E. }
    rewrite Hin. unfold Imports.requiresImport, Imports.includes.
    cbn [Imports.push Imports.values].
    now rewrite arr_includes_app, String.eqb_refl, orb_true_r.
  - assert (Hin : Imports.requiresImport imp x validOverrides = imp).
    { unfold Imports.requiresImport. now rewrite E. }
    rewrite Hin. exact Hin.
Qed.

(** [requiresImport] never stores a statement twice: values without a
    duplicate stay without one. *)
Theorem requiresImport_NoDup (imp : Imports.t) (x : string)
    (validOverrides : list string) :
  NoDup (Imports.values imp) ->
  NoDup (Imports.values (Imports.requiresImport imp x validOverrides)).
Proof.
  intros Hnd. unfold Imports.requiresImport.
  destruct (Imports.includes imp (Imports.formattedImport x)) eqn:Ei;
    cbn [negb andb]; [exact Hnd|].
  destruct (negb (Imports.hasAtLeastOneImport imp validOverrides)); [|exact Hnd].
  cbn [Imports.push Imports.values].
  apply NoDup_app; [exact Hnd | constructor; [intros [] | constructor] |].
  intros a Ha [<-|[]].
  apply arr_includes_In in Ha. unfold Imports.includes in Ei. congruence.
Qed.

Lemma requiresImport_NoDup_witness :
  NoDup (Imports.values
           (Imports.requiresImport (Imports.new Sample.sourceAB None)
              "package:equatable/equatable.dart" [])).
Proof.
  apply (requiresImport_NoDup (Imports.new Sample.sourceAB None)).
  vm_compute. constructor.
  - intros [H|[]]. discriminate.
  - constructor; [intros [] | constructor].
Defined.

(** ** Commands: the classes that were chosen *)

Lemma pushNamed_filter (selectedClass : string) (theClasses : list DartClass.t) :
  forall result : list DartClass.t,
    Commands.pushNamed selectedClass theClasses result
    = (result
       ++ filter (fun c => match DartClass.name c with
                           | Some n => String.eqb n selectedClass
                           | None => false
                           end) theClasses)%list.
Proof.
  induction theClasses as [|c cs IH]; intros result; cbn [Commands.pushNamed filter].
  - now rewrite app_nil_r.
  - rewrite IH.
    destruct (match DartClass.name c with
              | Some n => String.eqb n selectedClass
              | None => false
              end); [now rewrite <- app_assoc | reflexivity].
Qed.

Lemma pushSelected_In (names : list string) (theClasses : list DartClass.t) :
  forall (result : list DartClass.t) (c : DartClass.t),
    In c (Commands.pushSelected names theClasses result) <->
    In c result
    \/ (In c theClasses
        /\ exists n, DartClass.name c = Some n /\ In n names).
Proof.
  induction names as [|s names IH]; intros result c; cbn [Commands.pushSelected].
  - split; [now left | intros [H|(_ & n & _ & [])]; exact H].
  - rewrite IH, pushNamed_filter, in_app_iff, filter_In. split.
    + intros [[H|[Hc Hn]]|(Hc & n & Hn & Hin)].
      * now left.
      * right. split; [exact Hc|].
        destruct (DartClass.name c) as [n|]; [|discriminate].
        apply String.eqb_eq in Hn. subst s. exists n. split; [reflexivity | now left].
      * right. split; [exact Hc|]. exists n. split; [exact Hn | now right].
    + intros [H|(Hc & n & Hn & [->|Hin])].
      * now left; left.
      * left; right. split; [exact Hc|]. now rewrite Hn, String.eqb_refl.
      * right. split; [exact Hc|]. now exists n.
Qed.

(** The chooser answers [null] when nothing was picked; otherwise it
    answers with the classes that were offered and carry a picked name,
    all of them and no other class. *)
Theorem showClassChooser_spec (theClasses : list DartClass.t)
    (response : option (list string)) :
  match Commands.showClassChooser theClasses response with
  | None => response = None \/ response = Some []
  | Some result =>
      exists names,
        response = Some names /\ names <> []
        /\ forall c, In c result <->
                     In c theClasses
                     /\ exists n, DartClass.name c = Some n /\ In n names
  end.
Proof.
  destruct response as [[|s names]|]; unfold Commands.showClassChooser.
  - now right.
  - exists (s :: names). split; [reflexivity|]. split; [discriminate|].
    intros c.
    rewrite (pushSelected_In (s :: names) theClasses [] c).
    split; [intros [[]|H]; exact H | now right].
  - now left.
Qed.

(** ** DartClass: the kind of class *)

Lemma state_is_no_widget (s : string) :
  Js.startsWith s "State<" = true ->
  String.eqb s "StatelessWidget" || String.eqb s "StatefulWidget" = false.
Proof.
  unfold Js.startsWith. intros H. apply prefix_split in H as [rest ->].
  reflexivity.
Qed.

(** A class is a state class exactly when the name of its superclass
    starts with [State<]; it is a stateless widget exactly when its
    superclass is [StatelessWidget]; no class is both a widget and a state
    class. *)
Theorem class_kinds (c : DartClass.t) :
  DartClass.isState c
  = match DartClass.superclass c with
    | Some s => Js.startsWith s "State<"
    | None => false
    end
  /\ (DartClass.isStatelessWidget c = true <->
      DartClass.superclass c = Some "StatelessWidget")
  /\ DartClass.isWidget c && DartClass.isState c = false.
Proof.
  unfold DartClass.isState, DartClass.isStatelessWidget, DartClass.isWidget.
  destruct (DartClass.superclass c) as [s|]; [|repeat split; discriminate].
  split; [|split].
  - destruct (Js.startsWith s "State<") eqn:E; [|now rewrite andb_false_r].
    now rewrite (state_is_no_widget s E).
  - rewrite andb_true_iff, orb_true_iff, !String.eqb_eq. split.
    + intros [_ ->]. reflexivity.
    + intros H. inversion H. split; [now left | reflexivity].
  - destruct (String.eqb s "StatelessWidget" || String.eqb s "StatefulWidget");
      reflexivity.
Qed.

(** ** DartClass: the constructor text without a stray [const] *)

Lemma replace_absent (s pat rep : string) :
  Js.includes s pat = false -> Js.replace s pat rep = s.
Proof.
  induction s as [|c s IH]; cbn [Js.includes Js.replace].
  - destruct (prefix pat ""); [discriminate | reflexivity].
  - destruct (prefix pat (String c s)); [discriminate|].
    intros H. now rewrite IH.
Qed.

Lemma prefix_append (p r : string) : prefix p (p ++ r) = true.
Proof.
  induction p as [|a p IH]; [now destruct r|].
  cbn [String.append prefix]. destruct (ascii_dec a a) as [_|N]; [exact IH | now elim N].
Qed.

Lemma drop_append (p r : string) : Js.drop (String.length p) (p ++ r) = r.
Proof. induction p as [|a p IH]; [reflexivity | exact IH]. Qed.

Lemma replace_prefix (p r rep : string) : Js.replace (p ++ r) p rep = rep ++ r.
Proof.
  destruct (p ++ r) as [|c s] eqn:E; cbn [Js.replace]; rewrite <- E;
    now rewrite prefix_append, drop_append.
Qed.

(** When the constructor text holds no [const], or holds it in front,
    [hasNamedConstructor] tests whether the text, without that [const] and
    without leading white space, starts with the class name and [({]. *)
Theorem hasNamedConstructor_plain (c : DartClass.t) (text : string) :
  DartClass.constr c = Some text ->
  (Js.includes text "const" = false ->
   DartClass.hasNamedConstructor c
   = Js.startsWith (Js.trimLeft text) (Js.str (DartClass.name c) ++ "({"))
  /\ (forall rest, text = "const" ++ rest ->
      DartClass.hasNamedConstructor c
      = Js.startsWith (Js.trimLeft rest) (Js.str (DartClass.name c) ++ "({")).
Proof.
  intros Hc. unfold DartClass.hasNamedConstructor. rewrite Hc. split.
  - intros H. now rewrite (replace_absent _ _ _ H).
  - intros rest ->.
    now rewrite replace_prefix.
Qed.

Lemma hasNamedConstructor_plain_witness :
  DartClass.hasNamedConstructor Sample.constant
  = Js.startsWith (Js.trimLeft " Unit({this.id});") "Unit({".
Proof.
  apply (proj2 (hasNamedConstructor_plain Sample.constant "const Unit({this.id});"
                  eq_refl) " Unit({this.id});").
  reflexivity.
Defined.

(** ** DartClassProperty: the element type *)

Lemma prefix_empty (s : string) : prefix "" s = true.
Proof. now destruct s. Qed.

Lemma replace_char_end (t : string) (ch : ascii) :
  Js.includes t (String ch "") = false ->
  Js.replace (t ++ String ch "") (String ch "") "" = t.
Proof.
  induction t as [|c t IH]; intros H.
  - cbn [String.append Js.replace prefix].
    destruct (ascii_dec ch ch) as [_|N]; [reflexivity | now elim N].
  - cbn [Js.includes prefix] in H. cbn [String.append Js.replace prefix].
    destruct (ascii_dec ch c) as [->|N].
    + rewrite prefix_empty in H. discriminate.
    + now rewrite IH.
Qed.

(** For a list or a set written with one type argument that holds no
    closing bracket, [listType] is the property of that argument. *)
Theorem listType_element (toVarName : string -> string)
    (p : DartClassProperty.t) (t : string) :
  Js.includes t ">" = false ->
  DartClassProperty.rawType p = "List<" ++ t ++ ">"
  \/ DartClassProperty.rawType p = "Set<" ++ t ++ ">" ->
  DartClassProperty.rawType (DartClassProperty.listType toVarName p) = t
  /\ DartClassProperty.lineNumber (DartClassProperty.listType toVarName p)
     = DartClassProperty.lineNumber p.
Proof.
  intros Ht Hraw. unfold DartClassProperty.listType.
  destruct Hraw as [Hraw|Hraw].
  - assert (Hl : DartClassProperty.isList p = true).
    { unfold DartClassProperty.isList, DartClassProperty.isCollectionType,
        Js.startsWith. rewrite Hraw.
      change ("List" ++ "<") with "List<". rewrite prefix_append.
      apply orb_true_r. }
    assert (Hs : DartClassProperty.isSet p = false).
    { unfold DartClassProperty.isSet, DartClassProperty.isCollectionType,
        Js.startsWith. rewrite Hraw. reflexivity. }
    rewrite Hl, Hs. cbn [orb DartClassProperty.newDartClassProperty
                          DartClassProperty.rawType DartClassProperty.lineNumber].
    split; [|reflexivity]. rewrite Hraw.
    change ("List" ++ "<") with "List<".
    rewrite replace_prefix. cbn [String.append].
    rewrite (replace_char_end t _ Ht). reflexivity.
  - assert (Hs : DartClassProperty.isSet p = true).
    { unfold DartClassProperty.isSet, DartClassProperty.isCollectionType,
        Js.startsWith. rewrite Hraw.
      change ("Set" ++ "<") with "Set<". rewrite prefix_append.
      apply orb_true_r. }
    rewrite Hs, orb_true_r.
    cbn [DartClassProperty.newDartClassProperty
           DartClassProperty.rawType DartClassProperty.lineNumber].
    split; [|reflexivity]. rewrite Hraw.
    change ("Set" ++ "<") with "Set<".
    rewrite replace_prefix. cbn [String.append].
    rewrite (replace_char_end t _ Ht). reflexivity.
Qed.

Lemma listType_element_witness :
  DartClassProperty.rawType (DartClassProperty.listType (fun s => s) Sample.tags)
  = "String"
  /\ DartClassProperty.lineNumber
       (DartClassProperty.listType (fun s => s) Sample.tags)
     = DartClassProperty.lineNumber Sample.tags.
Proof.
  apply (listType_element (fun s => s) Sample.tags "String").
  - reflexivity.
  - right. reflexivity.
Defined.

(** ** Imports: which declarations the block holds *)

Section LineStart.

Variable pat : string.
Hypothesis pat_one_line : Js.hasNewline pat = false.
Hypothesis pat_not_empty : pat <> "".

Lemma prefix_line (l rest : string) :
  forall p : string,
    Js.hasNewline p = false -> prefix p (l ++ Js.nl ++ rest) = prefix p l.
Proof.
  induction l as [|c l IH]; intros [|a p] Hp; try reflexivity.
  - cbn [Js.hasNewline] in Hp. apply orb_false_iff in Hp as [Ha _].
    cbn. destruct (ascii_dec a _) as [->|_]; [discriminate | reflexivity].
  - cbn [Js.hasNewline] in Hp. apply orb_false_iff in Hp as [_ Hp].
    cbn [String.append prefix]. destruct (ascii_dec a c); [now apply IH | reflexivity].
Qed.

Lemma matchAfterBreak_line (l rest : string) :
  Js.matchAfterBreak (l ++ Js.nl ++ rest) pat
  = Js.matchAfterBreak l pat || Js.testLineStart rest pat.
Proof.
  induction l as [|c l IH].
  - reflexivity.
  - cbn [String.append Js.matchAfterBreak].
    rewrite IH, (prefix_line l rest pat pat_one_line). now rewrite orb_assoc.
Qed.

Lemma testLineStart_line (l rest : string) :
  Js.testLineStart (l ++ Js.nl ++ rest) pat
  = Js.testLineStart l pat || Js.testLineStart rest pat.
Proof.
  unfold Js.testLineStart at 1 2.
  rewrite matchAfterBreak_line, (prefix_line l rest pat pat_one_line).
  now rewrite orb_assoc.
Qed.

Lemma testLineStart_empty : Js.testLineStart "" pat = false.
Proof. destruct pat; [now elim pat_not_empty | reflexivity]. Qed.

(** A text made of lines matches at a line start exactly when one of its
    lines does. *)
Lemma testLineStart_unlines (lines : list string) :
  Js.testLineStart (Spec.unlines lines) pat
  = existsb (fun l => Js.testLineStart l pat) lines.
Proof.
  induction lines as [|l lines IH]; cbn [Spec.unlines existsb].
  - apply testLineStart_empty.
  - now rewrite testLineStart_line, IH.
Qed.

Lemma testLineStart_layout (content : Spec.Bucket -> list string) :
  Js.testLineStart (Spec.layout content) pat
  = existsb (fun l => Js.testLineStart l pat) (Spec.layoutLines content Spec.order).
Proof.
  unfold Spec.layout.
  destruct (layoutLines_end content Spec.order) as [->|[body ->]].
  - apply testLineStart_empty.
  - rewrite unlines_app. cbn [Spec.unlines]. rewrite append_nil_r.
    change ("" ++ Js.nl) with Js.nl. rewrite removeEnd_append.
    rewrite testLineStart_unlines, existsb_app. cbn [existsb].
    now rewrite testLineStart_empty, !orb_false_r.
Qed.

Lemma testLineStart_formatted (folder : option string) (imp : Imports.t) :
  Js.testLineStart (Imports.formatted folder imp) pat = true <->
  exists v, In v (Imports.values imp) /\ Js.testLineStart v pat = true.
Proof.
  rewrite formatted_layout, testLineStart_layout, existsb_exists.
  set (ws := Imports.workspaceOf (Imports.projectName imp) folder).
  unfold Spec.layoutLines. split.
  - intros (l & Hl & Hm). exists l. split; [|exact Hm].
    apply in_flat_map in Hl as (b & _ & Hl).
    destruct (Js.sort (Spec.directivesOf ws b (Imports.values imp)))
      as [|s rest] eqn:E; [now elim Hl|].
    cbn [Spec.bucketLines] in Hl. rewrite <- E in Hl.
    apply in_app_or in Hl as [Hl|[<-|[]]].
    + now apply sort_In, filter_In in Hl.
    + rewrite testLineStart_empty in Hm. discriminate.
  - intros (v & Hv & Hm). exists v. split; [|exact Hm].
    apply in_flat_map. exists (Spec.bucketOf ws v). split; [apply order_complete|].
    assert (Hin : In v (Js.sort (Spec.directivesOf ws (Spec.bucketOf ws v)
                                   (Imports.values imp)))).
    { apply sort_In, filter_In. split; [exact Hv | now apply bucket_eqb_eq]. }
    destruct (Js.sort _) as [|s rest]; [now elim Hin|].
    cbn [Spec.bucketLines]. apply in_or_app. now left.
Qed.

End LineStart.

(** The block is found to hold an export (an import) declaration exactly
    when one of its values has [export ] ([import ]) at its start or right
    after a line terminator inside it. *)
Theorem declarations_found (folder : option string) (imp : Imports.t) :
  (Imports.hasExportDeclaration folder imp = true <->
     exists v, In v (Imports.values imp) /\ Js.testLineStart v "export " = true)
  /\ (Imports.hasImportDeclaration folder imp = true <->
        exists v, In v (Imports.values imp) /\ Js.testLineStart v "import " = true).
Proof.
  split; apply testLineStart_formatted; first [reflexivity | discriminate].
Qed.

(** ** DartClass: what the replacement text does not depend on *)

Lemma loop_ext (c c' : DartClass.t) (lines : list string) :
  (forall i acc, DartClass.step c lines i acc = DartClass.step c' lines i acc) ->
  forall k acc, DartClass.loop c lines k acc = DartClass.loop c' lines k acc.
Proof.
  intros H. induction k as [|k IH]; intros acc; [reflexivity|].
  cbn [DartClass.loop]. now rewrite H, IH.
Qed.

(** When the source has a constructor (its first and last line are known),
    the stored constructor text plays no part in the replacement text: the
    constructor is never inserted a second time. *)
Theorem constructor_text_ignored (c : DartClass.t) (text : option string) :
  DartClass.constrStartsAtLine c <> None ->
  DartClass.constrEndsAtLine c <> None ->
  DartClass.generateClassReplacement (DartClass.withConstr c text)
  = DartClass.generateClassReplacement (DartClass.withConstr c None).
Proof.
  intros Hs He. unfold DartClass.generateClassReplacement.
  f_equal. apply loop_ext. intros i acc. unfold DartClass.step.
  destruct (Nat.eqb i 0); [reflexivity|].
  assert (H1 : forall b, b && Js.notNull (DartClass.constr (DartClass.withConstr c text))
                        && negb (DartClass.hasConstructor (DartClass.withConstr c text))
                        = false).
  { intros b. unfold DartClass.hasConstructor. cbn [DartClass.withConstr
      DartClass.constr DartClass.constrStartsAtLine DartClass.constrEndsAtLine].
    rewrite (proj2 (notNull_true _) Hs), (proj2 (notNull_true _) He).
    destruct text; cbn; now rewrite ?andb_false_r. }
  assert (H2 : forall b, b && Js.notNull (DartClass.constr (DartClass.withConstr c None))
                        && negb (DartClass.hasConstructor (DartClass.withConstr c None))
                        = false).
  { intros b. cbn. now rewrite andb_false_r. }
  rewrite H1, H2. reflexivity.
Qed.

Lemma constructor_text_ignored_witness :
  DartClass.generateClassReplacement
    (DartClass.withConstr Sample.reconstructor (Some "Reconstructor();"))
  = DartClass.generateClassReplacement
      (DartClass.withConstr Sample.reconstructor None).
Proof.
  apply (constructor_text_ignored Sample.reconstructor (Some "Reconstructor();"));
    discriminate.
Defined.

(** For a class that is not valid the text to insert is never written. *)
Theorem toInsert_ignored_when_invalid (c : DartClass.t) (text : string) :
  DartClass.isValid c = false ->
  DartClass.generateClassReplacement (DartClass.withToInsert c text)
  = DartClass.generateClassReplacement c.
Proof.
  intros Hv. unfold DartClass.generateClassReplacement.
  f_equal. apply loop_ext. intros i acc. unfold DartClass.step.
  change (DartClass.isValid (DartClass.withToInsert c text))
    with (DartClass.isValid c).
  rewrite Hv, !andb_false_r. reflexivity.
Qed.

Lemma toInsert_ignored_when_invalid_witness :
  DartClass.generateClassReplacement
    (DartClass.withToInsert Sample.twoIds "  int get n => 0;")
  = DartClass.generateClassReplacement Sample.twoIds.
Proof.
  apply (toInsert_ignored_when_invalid Sample.twoIds). reflexivity.
Defined.

(** ** Imports: what stands in front of the directives *)

Lemma readImports_loop_same (rest : list string) :
  forall (lines1 lines2 : list string) (i1 i2 : nat) (imp1 imp2 : Imports.t),
    Imports.values imp1 = Imports.values imp2 ->
    Imports.rawStatements imp1 = Imports.rawStatements imp2 ->
    let r1 := Imports.readImports_loop lines1 i1 rest imp1 in
    let r2 := Imports.readImports_loop lines2 i2 rest imp2 in
    Imports.values r1 = Imports.values r2
    /\ Imports.rawStatements r1 = Imports.rawStatements r2.
Proof.
  induction rest as [|raw rest IH]; intros lines1 lines2 i1 i2 imp1 imp2 Hv Hr;
    [now split|].
  cbn [Imports.readImports_loop]. rewrite Hv.
  destruct (Imports.isDirective (Js.trim raw)).
  - destruct rest as [|next rest'].
    + cbn [Imports.set_endAtLine Imports.pushLine Imports.values
           Imports.rawStatements]. now rewrite Hv, Hr.
    + apply IH; cbn [Imports.pushLine Imports.values Imports.rawStatements];
        now rewrite ?Hv, ?Hr.
  - match goal with |- context [if ?b || ?b' then _ else _] =>
      destruct (b || b') end.
    + destruct (Js.notNull (Imports.startAtLine imp1));
        destruct (Js.notNull (Imports.startAtLine imp2));
        repeat match goal with |- context [if ?b then _ else _] => destruct b end;
        cbn [Imports.set_endAtLine Imports.values Imports.rawStatements];
        now split.
    + now apply IH.
Qed.

Lemma preludeLine_not_directive (raw : string) :
  Spec.preludeLine raw -> Imports.isDirective (Js.trim raw) = false.
Proof.
  unfold Spec.preludeLine. cbv zeta. intros H.
  apply orb_true_iff in H as [H|H]; [apply orb_true_iff in H as [H|H]|].
  - apply prefix_split in H as [r ->]. reflexivity.
  - apply prefix_split in H as [r ->]. reflexivity.
  - unfold isBlank in H. rewrite trim_idempotent in H.
    apply String.eqb_eq in H. now rewrite H.
Qed.

Lemma readImports_loop_prelude (prelude rest : list string) :
  Forall Spec.preludeLine prelude ->
  rest <> [] ->
  forall (lines : list string) (i : nat) (imp : Imports.t),
    Imports.values imp = [] ->
    exists i',
      Imports.readImports_loop lines i (prelude ++ rest) imp
      = Imports.readImports_loop lines i' rest imp.
Proof.
  intros Hp Hne. induction Hp as [|raw prelude Hraw Hp IH]; intros lines i imp Hv.
  - now exists i.
  - change ((raw :: prelude) ++ rest)%list with (raw :: (prelude ++ rest))%list.
    cbn [Imports.readImports_loop].
    rewrite (preludeLine_not_directive raw Hraw), Hv.
    assert (Hnext : match (prelude ++ rest)%list with [] => true | _ :: _ => false end
                    = false).
    { destruct prelude; [destruct rest; [now elim Hne | reflexivity] | reflexivity]. }
    rewrite Hnext. unfold Spec.preludeLine in Hraw. cbv zeta in Hraw.
    cbn [List.length Nat.eqb]. rewrite andb_true_r, Hraw. cbn [negb orb].
    apply IH. exact Hv.
Qed.

Lemma split_nl_unlines_app (l : list string) (text : string) :
  Forall (fun line => Js.hasNewline line = false) l ->
  Js.split_nl (Spec.unlines l ++ text) = (l ++ Js.split_nl text)%list.
Proof.
  induction 1 as [|s l Hs Hl IH]; [reflexivity|].
  cbn [Spec.unlines]. rewrite !append_assoc, (split_nl_line _ _ Hs), IH.
  reflexivity.
Qed.

(** Comments, [library] directives and blank lines in front of the first
    directive do not change what is read: the values and the raw text are
    those of the text without these lines. *)
Theorem readImports_skips_prelude (prelude : list string) (text : string)
    (projectName : option string) :
  Forall (fun line => Js.hasNewline line = false) prelude ->
  Forall Spec.preludeLine prelude ->
  let imp := Imports.new (Spec.unlines prelude ++ text) projectName in
  let imp0 := Imports.new text projectName in
  Imports.values imp = Imports.values imp0
  /\ Imports.rawStatements imp = Imports.rawStatements imp0.
Proof.
  intros Hnl Hp. cbv zeta.
  destruct prelude as [|p prelude]; [now split|].
  unfold Imports.new, Imports.readImports.
  assert (Hlen : Nat.eqb (String.length (Spec.unlines (p :: prelude) ++ text)) 0
                 = false).
  { cbn [Spec.unlines]. rewrite !length_append. apply Nat.eqb_neq.
    simpl. lia. }
  rewrite Hlen, (split_nl_unlines_app _ _ Hnl).
  set (init := {| Imports.values := []; Imports.startAtLine := None;
                  Imports.endAtLine := None; Imports.rawStatements := "";
                  Imports.projectName := projectName |}).
  destruct (readImports_loop_prelude (p :: prelude) (Js.split_nl text) Hp
              (split_nl_nonempty text)
              ((p :: prelude) ++ Js.split_nl text)%list 0 init eq_refl)
    as [i' ->].
  destruct (Nat.eqb (String.length text) 0) eqn:E.
  - assert (Ht : text = "").
    { apply Nat.eqb_eq in E. destruct text; [reflexivity | discriminate]. }
    subst text. split; reflexivity.
  - apply readImports_loop_same; reflexivity.
Qed.

Lemma readImports_skips_prelude_witness :
  Imports.values (Imports.new Sample.withPrelude None)
  = Imports.values (Imports.new Sample.sourceAB None)
  /\ Imports.rawStatements (Imports.new Sample.withPrelude None)
     = Imports.rawStatements (Imports.new Sample.sourceAB None).
Proof.
  apply (readImports_skips_prelude
           ["// Copyright the authors."; "library shapes;"; ""]
           Sample.sourceAB None).
  - repeat constructor.
  - repeat constructor.
Defined.

(** The bounds of generic parameters are left out of [genericType]. *)
Lemma genericType_examples :
  let generic g :=
    DartClass.genericType
      (DartClass.mk (Some "Box") g None [] [] None [] None None None None
         false false "" "" [] false false) in
  generic "" = ""
  /\ generic "<T>" = "<T>"
  /\ generic "<T extends Comparable<T>>" = "<T>"
  /\ generic "<K extends Object,V>" = "<K, V>".
Proof. repeat split. Qed.

(** ** DartClass: the replacement text, line by line *)

(** A turn of the loop puts what is written for its line in front of the
    text built so far. *)
Lemma step_written (c : DartClass.t) (lines : list string) (i : nat)
    (acc : string) :
  DartClass.step c lines i acc = Spec.written c lines i acc ++ acc.
Proof.
  unfold DartClass.step, Spec.written.
  destruct (Nat.eqb i 0); [now rewrite classDeclaration_eq|].
  match goal with |- context [if ?b then _ else _] => destruct b end.
  { now rewrite !append_assoc. }
  match goal with |- context [if ?b then _ else _] => destruct b end.
  { now rewrite !append_assoc. }
  destruct (DartClass.replacementAtLine c _) as [rp|]; [|reflexivity].
  destruct (Js.includes acc rp); cbn [negb]; [reflexivity|].
  now rewrite !append_assoc.
Qed.

Lemma below_joined (c : DartClass.t) (lines : list string) (d : nat) :
  forall k : nat,
    DartClass.below c lines k d = Spec.joined (Spec.piecesFrom c lines k d).
Proof.
  induction d as [|d IH]; intros k; [reflexivity|].
  cbn [DartClass.below Spec.piecesFrom Spec.joined].
  now rewrite step_written, IH.
Qed.

Lemma piecesFrom_length (c : DartClass.t) (lines : list string) (d : nat) :
  forall k : nat, List.length (Spec.piecesFrom c lines k d) = d.
Proof.
  induction d as [|d IH]; intros k; [reflexivity|].
  cbn [Spec.piecesFrom List.length]. now rewrite IH.
Qed.

Lemma piecesFrom_skipn (c : DartClass.t) (lines : list string) (j : nat) :
  forall k d : nat,
    (j <= d)%nat ->
    skipn j (Spec.piecesFrom c lines k d) = Spec.piecesFrom c lines (k + j) (d - j).
Proof.
  induction j as [|j IH]; intros k d Hj.
  - now rewrite Nat.add_0_r, Nat.sub_0_r.
  - destruct d as [|d]; [lia|].
    cbn [Spec.piecesFrom skipn]. rewrite IH by lia.
    now rewrite Nat.add_succ_r.
Qed.

Lemma skipn_head {A : Type} (l : list A) :
  forall (i : nat) (x : A) (rest : list A),
    skipn i l = x :: rest -> nth_error l i = Some x.
Proof.
  induction l as [|y l IH]; intros [|i] x rest H; try discriminate.
  - now inversion H.
  - cbn [skipn] in H. cbn [nth_error]. now apply (IH i x rest).
Qed.

Lemma piecesFrom_nth (c : DartClass.t) (lines : list string) (n i : nat) :
  (i < n)%nat ->
  let pieces := Spec.piecesFrom c lines 0 n in
  nth_error pieces i
  = Some (Spec.written c lines i (Spec.joined (skipn (S i) pieces))).
Proof.
  intros Hi pieces.
  assert (Hskip : skipn i pieces = Spec.piecesFrom c lines i (n - i)).
  { unfold pieces. now rewrite piecesFrom_skipn by lia. }
  assert (Hnext : skipn (S i) pieces = Spec.piecesFrom c lines (S i) (n - S i)).
  { unfold pieces. now rewrite piecesFrom_skipn by lia. }
  rewrite Hnext.
  replace (n - i)%nat with (S (n - S i)) in Hskip by lia.
  cbn [Spec.piecesFrom] in Hskip.
  exact (skipn_head pieces i _ _ Hskip).
Qed.

(** C1: the replacement text is made of one piece per line of the span,
    in the order of the lines, with its last newline stripped; the piece
    of a line depends on the text behind it as the four rules of the
    planner say; and the piece of a line that is not the first line, not
    the closing line, not the line after which a synthesized constructor
    is inserted and not inside the span of a part to replace (a [null]
    bound of a span counts as [0], as in the comparison of
    [replacementAtLine]) is that line of [classContent] and a newline,
    nothing else. *)
Theorem untouched_line_copied (c : DartClass.t) :
  let lines := Js.split_nl (DartClass.classContent c) in
  let n := Z.to_nat (DartClass.lastIndex c + 1) in
  exists pieces : list string,
    List.length pieces = n
    /\ DartClass.generateClassReplacement c = removeEnd (Spec.joined pieces) Js.nl
    /\ (forall i : nat,
          (i < n)%nat ->
          nth_error pieces i
          = Some (Spec.written c lines i (Spec.joined (skipn (S i) pieces))))
    /\ (forall (i : nat) (line : string),
          let l := (Js.num (DartClass.startsAtLine c) + Z.of_nat i)%Z in
          (0 < i)%nat ->
          (Z.of_nat i <= DartClass.lastIndex c)%Z ->
          DartClass.lineIs l (DartClass.endsAtLine c) = false ->
          nth_error lines i = Some line ->
          Z.eqb l (DartClass.propsEndAtLine c) && Js.notNull (DartClass.constr c)
            && negb (DartClass.hasConstructor c) = false ->
          (forall part, In part (DartClass.toReplace c) ->
                        DartClass.covers part l = false) ->
          nth_error pieces i = Some (line ++ Js.nl)).
Proof.
  intros lines n. exists (Spec.piecesFrom c lines 0 n).
  split; [apply piecesFrom_length|]. split; [|split].
  - unfold DartClass.generateClassReplacement. fold lines n.
    change n with (0 + n)%nat at 1.
    rewrite loop_below. cbn [DartClass.loop]. now rewrite below_joined.
  - intros i Hi. now apply piecesFrom_nth.
  - intros i line l Hfirst Hin Hclosing Hline Hconstr Hparts.
    rewrite (piecesFrom_nth c lines n i) by (unfold n; lia).
    unfold Spec.written. fold l.
    destruct i as [|i']; [lia|]. cbn [Nat.eqb].
    rewrite Hconstr, Hclosing. cbn [andb].
    unfold DartClass.replacementAtLine.
    now rewrite (replacementAt_uncovered _ _ Hparts), Hline.
Qed.

Lemma untouched_line_copied_witness :
  exists pieces : list string,
    DartClass.generateClassReplacement Sample.point
    = removeEnd (Spec.joined pieces) Js.nl
    /\ nth_error pieces 3 = Some ("  // keep me" ++ Js.nl).
Proof.
  destruct (untouched_line_copied Sample.point) as (pieces & _ & Htext & _ & Hline).
  exists pieces. split; [exact Htext|].
  apply (Hline 3 "  // keep me").
  - lia.
  - vm_compute. discriminate.
  - reflexivity.
  - reflexivity.
  - reflexivity.
  - intros part [<-|[]]. reflexivity.
Defined.

(** ** Imports: whether the block changes *)














(** ** DartClassProperty: a nullable list of nullable elements *)


(** ** DartClass: a class on one line *)

(** A class that starts and ends on the same line is replaced by its
    header alone: the only turn of the loop is the one of the first line,
    so neither the rest of the line nor the text to insert is written. *)
Theorem replacement_one_line (c : DartClass.t) :
  DartClass.lastIndex c = 0%Z ->
  DartClass.generateClassReplacement c = Spec.header c.
Proof.
  intros H. unfold DartClass.generateClassReplacement. rewrite H.
  change (Z.to_nat (0 + 1)) with 1%nat. cbn [DartClass.loop].
  unfold DartClass.step. cbn [Nat.eqb].
  rewrite classDeclaration_eq, append_nil_r. apply removeEnd_append.
Qed.

Lemma replacement_one_line_witness :
  DartClass.isValid Sample.oneLine = true
  /\ DartClass.generateClassReplacement Sample.oneLine = "class Foo {".
Proof.
  split; [reflexivity|].
  apply (replacement_one_line Sample.oneLine). reflexivity.
Defined.
